(** * WarManageClashRoyale: the clan dashboard of [app/clashroyale.py]

    A shallow embedding of the dashboard script: the helpers on clan tags,
    the API gateway, the per-clan contact table kept in a CSV file, the
    fetch handler and the two columns of the display, followed by the
    properties of the reconciliation between roster, river race and contacts.

    Conventions.  A Python [str] is a Rocq [string], one [ascii] per
    character; the character classes and the case mapping below are Python's
    on the ASCII range (clan tags are ['#'] followed by letters and digits).
    A pandas cell is a [cell]; a [DataFrame] is its column labels and its
    rows.  Streamlit calls append [widget]s to the page of the script state. *)

From Stdlib Require Import ZArith Ascii String List Bool Lia.
From stdpp Require Import base option list gmap strings.

Import ListNotations.
Local Open Scope string_scope.
Local Open Scope Z_scope.

(** ** Characters and strings *)

Definition code (c : ascii) : N := N_of_ascii c.

Definition in_range (lo hi c : ascii) : bool :=
  ((code lo <=? code c) && (code c <=? code hi))%N.

Definition is_lower (c : ascii) : bool := in_range "a" "z" c.
Definition is_upper (c : ascii) : bool := in_range "A" "Z" c.
Definition is_digit (c : ascii) : bool := in_range "0" "9" c.

(** The class [[a-zA-Z0-9_]] of the second pattern of [sanitize_filename]. *)
Definition is_word_char (c : ascii) : bool :=
  is_lower c || is_upper c || is_digit c || Ascii.eqb c "_".

(** [str.isspace] on the ASCII range: tab, line feed, vertical tab, form
    feed, carriage return, the four separators 0x1c..0x1f and the space. *)
Definition is_space (c : ascii) : bool :=
  ((9 <=? code c) && (code c <=? 13) || (28 <=? code c) && (code c <=? 32))%N.

(** [str.upper], one character. *)
Definition upper_char (c : ascii) : ascii :=
  if is_lower c then ascii_of_N (code c - 32) else c.

Fixpoint map_str (f : ascii -> ascii) (s : string) : string :=
  match s with
  | EmptyString => EmptyString
  | String c r => String (f c) (map_str f r)
  end.

Fixpoint forall_str (p : ascii -> bool) (s : string) : bool :=
  match s with
  | EmptyString => true
  | String c r => p c && forall_str p r
  end.

Definition upper (s : string) : string := map_str upper_char s.

Fixpoint lstrip (s : string) : string :=
  match s with
  | EmptyString => EmptyString
  | String c r => if is_space c then lstrip r else s
  end.

Fixpoint rstrip (s : string) : string :=
  match s with
  | EmptyString => EmptyString
  | String c r =>
      match rstrip r with
      | EmptyString => if is_space c then EmptyString else String c EmptyString
      | r' => String c r'
      end
  end.

(** [str.strip()] with no argument. *)
Definition strip (s : string) : string := rstrip (lstrip s).

Definition startswith (s p : string) : bool := String.prefix p s.

(** [re.sub(r'^#', '', tag)]: the anchor matches at the start only, so at
    most one ['#'] goes. *)
Definition sub_leading_hash (tag : string) : string :=
  match tag with
  | String "#" r => r
  | _ => tag
  end.

(** [re.sub(r'[^a-zA-Z0-9_]', '_', s)]: every character outside the class
    is replaced, one for one. *)
Definition sub_non_word (s : string) : string :=
  map_str (fun c => if is_word_char c then c else "_"%char) s.

(** [sanitize_filename(tag)] *)
Definition sanitize_filename (tag : string) : string :=
  let sanitized := sub_leading_hash tag in
  let sanitized := sub_non_word sanitized in
  sanitized.

(** [str.lower], one character; [str.isalpha] on the ASCII range. *)
Definition lower_char (c : ascii) : ascii :=
  if is_upper c then ascii_of_N (code c + 32) else c.

Definition is_alpha (c : ascii) : bool := is_lower c || is_upper c.

(** [s.replace('_', ' ')] *)
Definition replace_underscore (s : string) : string :=
  map_str (fun c => if Ascii.eqb c "_" then " "%char else c) s.

(** [str.title]: a letter that follows a letter is lowered, any other
    letter is raised. *)
Fixpoint title_from (after_letter : bool) (s : string) : string :=
  match s with
  | EmptyString => EmptyString
  | String c r =>
      String (if is_alpha c
              then (if after_letter then lower_char c else upper_char c)
              else c)
             (title_from (is_alpha c) r)
  end.

Definition title (s : string) : string := title_from false s.

(** Decimal text of a natural number, as [str(n)] and [%d] print it; a
    number has no more digits than bits. *)
Definition digit_char (d : N) : ascii := ascii_of_N (48 + d).

Fixpoint decimal_from (fuel : nat) (n : N) (acc : string) : string :=
  match fuel with
  | O => acc
  | S fuel' =>
      let acc' := String (digit_char (n mod 10)) acc in
      if (n / 10 =? 0)%N then acc' else decimal_from fuel' (n / 10) acc'
  end.

Definition decimal (n : N) : string := decimal_from (S (N.to_nat (N.size n))) n "".

Definition decimal_Z (n : Z) : string :=
  if n <? 0 then String "-" (decimal (Z.to_N (- n))) else decimal (Z.to_N n).

Fixpoint repeat_char (c : ascii) (n : nat) : string :=
  match n with
  | O => EmptyString
  | S n' => String c (repeat_char c n')
  end.

(** [s.zfill(w)] for an unsigned numeral. *)
Definition zfill (w : nat) (s : string) : string :=
  repeat_char "0" (w - String.length s) ++ s.

(** ** Time stamps *)

Record datetime := mkDatetime
  { year : N; month : N; day : N; hour : N; minute : N }.

(** One directive of [strftime], as the C library formats it: [%Y] is the
    year in decimal, [%m %d %H %M] are two digits, zero padded. *)
Definition directive (d : ascii) (t : datetime) : string :=
  if Ascii.eqb d "Y" then decimal (year t)
  else if Ascii.eqb d "m" then zfill 2 (decimal (month t))
  else if Ascii.eqb d "d" then zfill 2 (decimal (day t))
  else if Ascii.eqb d "H" then zfill 2 (decimal (hour t))
  else if Ascii.eqb d "M" then zfill 2 (decimal (minute t))
  else String "%" (String d EmptyString).

(** [t.strftime(fmt)] for the directives above; other characters are copied. *)
Fixpoint strftime (fmt : string) (t : datetime) : string :=
  match fmt with
  | EmptyString => EmptyString
  | String c r =>
      match r with
      | String d r' =>
          if Ascii.eqb c "%" then directive d t ++ strftime r' t
          else String c (strftime r t)
      | EmptyString => String c EmptyString
      end
  end.

(** ** URL quoting *)

Definition hex_char (d : N) : ascii :=
  if (d <? 10)%N then ascii_of_N (48 + d) else ascii_of_N (55 + d).

(** [urllib.parse.quote] keeps letters, digits, [_.-~] and the safe ['/']. *)
Definition is_unreserved (c : ascii) : bool :=
  is_word_char c || Ascii.eqb c "." || Ascii.eqb c "-" || Ascii.eqb c "~"
  || Ascii.eqb c "/".

Fixpoint quote (s : string) : string :=
  match s with
  | EmptyString => EmptyString
  | String c r =>
      if is_unreserved c then String c (quote r)
      else String "%" (String (hex_char (code c / 16))
                         (String (hex_char (code c mod 16)) (quote r)))
  end.

(** ** Configuration constants *)

Definition BASE_API_URL : string := "https://api.clashroyale.com/v1".
Definition PLAYER_DATA_DIR : string := "dados_clas".

(** ** pandas: cells and frames *)

(** A cell holds a missing value, a string or an integer. *)
Inductive cell :=
| NaN
| Str (s : string)
| Num (n : Z).

#[global] Instance cell_eq_dec : EqDecision cell.
Proof. solve_decision. Defined.

#[global] Instance cell_countable : Countable cell :=
  inj_countable'
    (fun c => match c with
              | NaN => inl tt
              | Str s => inr (inl s)
              | Num n => inr (inr n)
              end)
    (fun x => match x with
              | inl _ => NaN
              | inr (inl s) => Str s
              | inr (inr n) => Num n
              end)
    (fun c => match c with NaN | Str _ | Num _ => eq_refl end).

(** A frame with the default [RangeIndex]: labels in order, one map per row.
    A label a row does not bind reads as a missing value. *)
Record DataFrame := mkDF
  { columns : list string;
    rows : list (gmap string cell) }.

#[global] Instance DataFrame_eq_dec : EqDecision DataFrame.
Proof. solve_decision. Defined.

Definition cell_at (r : gmap string cell) (c : string) : cell :=
  default NaN (r !! c).

(** The row that binds exactly the labels [cols], with [g c] under [c]. *)
Definition row_of (cols : list string) (g : string -> cell) : gmap string cell :=
  list_to_map ((fun c => (c, g c)) <$> cols).

Definition map_cells (f : string -> cell -> cell) (df : DataFrame) : DataFrame :=
  mkDF (columns df)
       ((fun r => row_of (columns df) (fun c => f c (cell_at r c))) <$> rows df).

(** [pd.DataFrame(columns=cols)] and [pd.DataFrame()] *)
Definition empty_frame (cols : list string) : DataFrame := mkDF cols [].

(** [df.empty]: some axis has length zero. *)
Definition df_empty (df : DataFrame) : bool :=
  bool_decide (rows df = []) || bool_decide (columns df = []).

(** [col in df.columns] *)
Definition has_column (df : DataFrame) (col : string) : bool :=
  bool_decide (col ∈ columns df).

(** [df[col]], a series over the default index. *)
Definition getitem (df : DataFrame) (col : string) : list cell :=
  (fun r => cell_at r col) <$> rows df.

(** [df[cols]]; every call site asks for labels the frame has. *)
Definition select (df : DataFrame) (cols : list string) : DataFrame :=
  mkDF cols ((fun r => row_of cols (cell_at r)) <$> rows df).

Definition add_label (cols : list string) (col : string) : list string :=
  if bool_decide (col ∈ cols) then cols else cols ++ [col].

(** [df[col] = v] for a scalar [v]: broadcast over the rows the frame has. *)
Definition setitem_scalar (df : DataFrame) (col : string) (v : cell) : DataFrame :=
  mkDF (add_label (columns df) col) ((fun r => <[col := v]> r) <$> rows df).

(** [df[col] = series].  A frame without rows first takes the index of a
    non-empty series, its cells so far reading as missing; then the series is
    aligned on the index, positions it lacks being missing. *)
Definition setitem_series (df : DataFrame) (col : string) (s : list cell) : DataFrame :=
  let base :=
    match rows df, s with
    | [], _ :: _ => replicate (length s) (row_of (columns df) (fun _ => NaN))
    | rs, _ => rs
    end in
  mkDF (add_label (columns df) col)
       (imap (fun i r => <[col := default NaN (s !! i)]> r) base).

Definition fill (v : cell) (c : cell) : cell :=
  match c with NaN => v | _ => c end.

(** [df.fillna(v)] *)
Definition fillna (v : cell) (df : DataFrame) : DataFrame :=
  map_cells (fun _ c => fill v c) df.

(** [df.fillna({col: v, ...})] *)
Definition fill_from (d : list (string * cell)) (col : string) (c : cell) : cell :=
  match list_find (fun kv => kv.1 = col) d with
  | Some (_, (_, v)) => fill v c
  | None => c
  end.

Definition fillna_dict (d : list (string * cell)) (df : DataFrame) : DataFrame :=
  map_cells (fill_from d) df.

(** [df.rename(columns=d)] *)
Definition rename_label (d : list (string * string)) (col : string) : string :=
  match list_find (fun kv => kv.1 = col) d with
  | Some (_, (_, new)) => new
  | None => col
  end.

Definition rename (d : list (string * string)) (df : DataFrame) : DataFrame :=
  mkDF (rename_label d <$> columns df)
       ((fun r => list_to_map ((fun c => (rename_label d c, cell_at r c)) <$> columns df))
          <$> rows df).

(** [df[mask]] for a row-wise mask. *)
Definition filter_rows (p : gmap string cell -> bool) (df : DataFrame) : DataFrame :=
  mkDF (columns df) (List.filter p (rows df)).

(** [series == 0], one cell: a missing value equals nothing. *)
Definition eq_zero (c : cell) : bool :=
  match c with
  | Num n => n =? 0
  | _ => false
  end.

(** [series.isin(tags)], one cell. *)
Definition isin (tags : gset cell) (c : cell) : bool := bool_decide (c ∈ tags).

(** [pd.merge(left, right, on=key, how='left')] for frames that share only
    the label [key]: left rows in order, each joined with its matches in
    [right] in order, or with missing values when it has none. *)
Definition join_row (others : list string) (l r : gmap string cell) : gmap string cell :=
  foldr (fun c acc => <[c := cell_at r c]> acc) l others.

Definition merge_left (left right : DataFrame) (key : string) : DataFrame :=
  let others := List.filter (fun c => negb (String.eqb c key)) (columns right) in
  mkDF (columns left ++ others)
       (concat
          ((fun l =>
              match List.filter (fun r => bool_decide (cell_at r key = cell_at l key))
                                (rows right) with
              | [] => [join_row others l ∅]
              | ms => join_row others l <$> ms
              end) <$> rows left)).

(** ** CSV files and the data directory *)

(** A file on disk, as the CSV tokenizer delivers it: nothing at all, bytes
    it rejects, or a header (labels distinct) followed by records of fields.
    A record shorter than the header reads as padded with empty fields. *)
Inductive csv_file :=
| CsvEmpty
| CsvMalformed (err : string)
| CsvTable (header : list string) (records : list (list string)).

(** The data directory, the files under it, and how the operating system
    answers [os.makedirs] and a write: [Some e] raises the error [e]. *)
Record FileSystem := mkFS
  { dir_exists : bool;
    makedirs_error : option string;
    write_error : option string;
    files : gmap string csv_file }.

(** What a cell prints as: [to_csv] writes a missing value as nothing. *)
Definition cell_text (c : cell) : string :=
  match c with
  | NaN => ""
  | Str s => s
  | Num n => decimal_Z n
  end.

(** [df.to_csv(index=False)] *)
Definition to_csv (df : DataFrame) : csv_file :=
  CsvTable (columns df)
           ((fun r => (fun c => cell_text (cell_at r c)) <$> columns df) <$> rows df).

(** The fields [read_csv] takes for missing by default; the call in
    [load_player_data] passes neither [keep_default_na] nor [na_filter], so
    they apply to the string columns as well. *)
Definition na_values : list string :=
  [""; "#N/A"; "#N/A N/A"; "#NA"; "-1.#IND"; "-1.#QNAN"; "-NaN"; "-nan";
   "1.#IND"; "1.#QNAN"; "<NA>"; "N/A"; "NA"; "NULL"; "NaN"; "None"; "n/a";
   "nan"; "null"].

Definition parse_field (text : string) : cell :=
  if bool_decide (text ∈ na_values) then NaN else Str text.

(** The frame [pd.read_csv(path, dtype=str)] builds from a tokenized table. *)
Definition frame_of_table (header : list string) (records : list (list string)) : DataFrame :=
  mkDF header
       ((fun rec =>
           list_to_map (imap (fun i c => (c, parse_field (default "" (rec !! i)))) header))
          <$> records).

Inductive read_result :=
| Parsed (df : DataFrame)
| FileNotFoundError
| EmptyDataError
| OtherError (err : string).

Definition read_csv (fs : FileSystem) (path : string) : read_result :=
  match files fs !! path with
  | None => FileNotFoundError
  | Some CsvEmpty => EmptyDataError
  | Some (CsvMalformed err) => OtherError err
  | Some (CsvTable header records) => Parsed (frame_of_table header records)
  end.

(** ** API payloads *)

Record Member := mkMember
  { m_tag : string; m_name : string; m_expLevel : Z; m_trophies : Z;
    m_clanRank : Z; m_role : string; m_donations : Z; m_lastSeen : string }.

(** A participant of the river race; the API may leave [decksUsedToday] out. *)
Record Participant := mkParticipant
  { p_tag : string; p_name : string; p_fame : Z; p_repairPoints : Z;
    p_boatAttacks : Z; p_decksUsedToday : option Z }.

(** JSON objects: the keys the script reads, each present or not, and
    whether the object has other keys (an object is falsy when it has none). *)
Record MembersPayload := mkMembersPayload
  { items : option (list Member); mp_other_keys : bool }.

Record ClanInfo := mkClanInfo
  { ci_fame : option Z; ci_participants : option (list Participant);
    ci_repairPoints : option Z; ci_other_keys : bool }.

Record RiverRace := mkRiverRace
  { rr_state : option string; rr_clan : option ClanInfo;
    rr_sectionIndex : option Z; rr_periodIndex : option Z;
    rr_periodType : option string; rr_warEndTime : option string;
    rr_other_keys : bool }.

Definition empty_dict : RiverRace :=
  mkRiverRace None None None None None None false.

Definition payload_truthy (d : MembersPayload) : bool :=
  bool_decide (is_Some (items d)) || mp_other_keys d.

Definition clan_truthy (d : ClanInfo) : bool :=
  bool_decide (is_Some (ci_fame d)) || bool_decide (is_Some (ci_participants d))
  || bool_decide (is_Some (ci_repairPoints d)) || ci_other_keys d.

Definition race_truthy (d : RiverRace) : bool :=
  bool_decide (is_Some (rr_state d)) || bool_decide (is_Some (rr_clan d))
  || bool_decide (is_Some (rr_sectionIndex d)) || bool_decide (is_Some (rr_periodIndex d))
  || bool_decide (is_Some (rr_periodType d)) || bool_decide (is_Some (rr_warEndTime d))
  || rr_other_keys d.

(** How [requests.get] followed by [raise_for_status] and [json] ends:
    a decoded body; an HTTP error [exc] carrying a response with its status,
    its body text and that text decoded ([Some (reason, message)]) or not
    JSON ([None]); or an exception [exc] without a response. *)
Inductive response (A : Type) :=
| Replied (body : A)
| Refused (exc : string) (status : Z) (detail : option (option string * option string))
          (text : string)
| Failed (exc : string).
Arguments Replied {A} body.
Arguments Refused {A} exc status detail text.
Arguments Failed {A} exc.

(** The process environment: the token variable, and the remote service as
    a function of the URL and of the [Authorization] header. *)
Record Env := mkEnv
  { CLASH_ROYALE_API_TOKEN : option string;
    get_members : string -> string -> response MembersPayload;
    get_race : string -> string -> response RiverRace }.

(** ** The page, the session and the script state *)

Inductive widget :=
| WTitle (s : string)
| WHeader (s : string)
| WSubheader (s : string)
| WText (s : string)
| WMarkdown (s : string)
| WInfo (s : string)
| WSuccess (s : string)
| WWarning (s : string)
| WError (s : string)
| WMetric (label : string) (value : Z)
| WDataframe (df : DataFrame)
| WDataEditor (key : string) (df : DataFrame)
| WButton (label : string)
| WDownload (label : string) (data : csv_file) (file_name : string)
| WSidebar (w : widget).

(** [st.session_state]: a key is present ([Some]) or not. *)
Record Session := mkSession
  { api_token : option string;
    clan_tag : option string;
    members_data : option (list Member);
    river_race_data : option RiverRace;
    data_loaded_for_tag : option string;
    editor_keys : gset string;
    player_phone_data : gmap string DataFrame }.

Record World := mkWorld
  { session : Session;
    disk : FileSystem;
    page : list widget }.

(** The script threads the world through every call. *)
Definition App (A : Type) : Type := World -> A * World.

#[global] Instance App_ret : MRet App := fun A x w => (x, w).
#[global] Instance App_bind : MBind App :=
  fun A B f m w => let '(a, w') := m w in f a w'.

Definition emit (x : widget) : App unit :=
  fun w => (tt, mkWorld (session w) (disk w) (page w ++ [x])).

Definition st_error (s : string) : App unit := emit (WError s).
Definition st_warning (s : string) : App unit := emit (WWarning s).
Definition st_info (s : string) : App unit := emit (WInfo s).
Definition st_success (s : string) : App unit := emit (WSuccess s).
Definition st_write (s : string) : App unit := emit (WText s).
Definition st_subheader (s : string) : App unit := emit (WSubheader s).

Definition get_session : App Session := fun w => (session w, w).
Definition put_session (s : Session) : App unit :=
  fun w => (tt, mkWorld s (disk w) (page w)).
Definition get_disk : App FileSystem := fun w => (disk w, w).
Definition put_disk (d : FileSystem) : App unit :=
  fun w => (tt, mkWorld (session w) d (page w)).

(** Truth value of an optional string: [None] and [''] are falsy. *)
Definition truthy (s : option string) : bool :=
  match s with
  | Some (String _ _) => true
  | _ => false
  end.

(** ** Helpers on files *)

Definition SCHEMA : list string := ["tag"; "name"; "phone"].

(** [get_clan_csv_filename(clan_tag)]: the path of the clan's table, after
    making sure the data directory exists; [None] when it cannot be made. *)
Definition get_clan_csv_filename (clan_tag : string) : App (option string) :=
  fs ← get_disk;
  let path :=
    PLAYER_DATA_DIR ++ "/" ++ "dados_jogadores_" ++ sanitize_filename clan_tag ++ ".csv" in
  if negb (dir_exists fs) then
    match makedirs_error fs with
    | Some e =>
        st_error ("Erro ao criar diretório " ++ PLAYER_DATA_DIR ++ ": " ++ e);;
        mret None
    | None =>
        put_disk (mkFS true (makedirs_error fs) (write_error fs) (files fs));;
        mret (Some path)
    end
  else mret (Some path).

(** ** API gateway *)

(** [get_api_headers(user_api_token)]: the value of the [Authorization]
    header, the token of the operator first, the environment's otherwise. *)
Definition get_api_headers (env : Env) (user_api_token : option string) : option string :=
  let api_token :=
    if truthy user_api_token then user_api_token else CLASH_ROYALE_API_TOKEN env in
  if negb (truthy api_token) then None
  else Some ("Bearer " ++ default "" api_token).

(** [s.split('/')] *)
Fixpoint split_slash (s : string) (cur : string) : list string :=
  match s with
  | EmptyString => [cur]
  | String c r =>
      if Ascii.eqb c "/" then cur :: split_slash r ""
      else split_slash r (cur ++ String c EmptyString)
  end.

(** [fetch_api_data(endpoint, user_api_token)]: the decoded body, or [None]
    after reporting what went wrong. *)
Definition fetch_api_data {A} (get : string -> string -> response A) (env : Env)
    (endpoint : string) (user_api_token : option string) : App (option A) :=
  match get_api_headers env user_api_token with
  | None => mret None
  | Some headers =>
      let url := BASE_API_URL ++ "/" ++ endpoint in
      match get url headers with
      | Replied body => mret (Some body)
      | Refused exc status detail text =>
          st_error ("Erro ao conectar à API Clash Royale (" ++ url ++ "): " ++ exc);;
          match detail with
          | Some (reason, message) =>
              let reason := default "" reason in
              let message := default text message in
              if status =? 403 then
                st_error "Erro 403: Acesso Negado. Verifique se o Token da API é válido e se o IP de acesso está autorizado na sua conta de desenvolvedor Supercell."
              else if status =? 404 then
                st_error ("Erro 404: Recurso não encontrado (Tag do Clã '"
                          ++ default "" (split_slash endpoint "" !! 1%nat) ++ "' existe?).")
              else
                st_error ("Detalhes do erro da API (" ++ decimal_Z status ++ "): "
                          ++ reason ++ " - " ++ message)
          | None => st_error ("Resposta da API (não JSON): " ++ text)
          end;;
          mret None
      | Failed exc =>
          st_error ("Erro ao conectar à API Clash Royale (" ++ url ++ "): " ++ exc);;
          mret None
      end
  end.

(** [get_clan_members(clan_tag, user_api_token)].  The result is a Python
    value the caller tests against [None]: [Some l] is the list [l]. *)
Definition get_clan_members (env : Env) (clan_tag : string)
    (user_api_token : option string) : App (option (list Member)) :=
  let encoded_tag := quote clan_tag in
  let endpoint := "clans/" ++ encoded_tag ++ "/members" in
  data ← fetch_api_data (get_members env) env endpoint user_api_token;
  mret (match data with
        | Some d => if payload_truthy d then Some (default [] (items d)) else Some []
        | None => Some []
        end).

(** [get_current_river_race(clan_tag, user_api_token)] *)
Definition get_current_river_race (env : Env) (clan_tag : string)
    (user_api_token : option string) : App RiverRace :=
  let encoded_tag := quote clan_tag in
  let endpoint := "clans/" ++ encoded_tag ++ "/currentriverrace" in
  data ← fetch_api_data (get_race env) env endpoint user_api_token;
  mret (match data with
        | Some d => if race_truthy d then d else empty_dict
        | None => empty_dict
        end).

(** ** Contact store *)

(** [load_player_data(clan_tag)] *)
Definition load_player_data (clan_tag : string) : App DataFrame :=
  filepath ← get_clan_csv_filename clan_tag;
  match filepath with
  | None => mret (empty_frame SCHEMA)
  | Some filepath =>
      fs ← get_disk;
      match read_csv fs filepath with
      | Parsed df =>
          let df :=
            foldl (fun df col =>
                     if has_column df col then df else setitem_scalar df col (Str ""))
                  df SCHEMA in
          let df := fillna (Str "") df in
          mret (select df SCHEMA)
      | FileNotFoundError => mret (empty_frame SCHEMA)
      | EmptyDataError => mret (empty_frame SCHEMA)
      | OtherError e =>
          st_error ("Erro ao carregar o arquivo CSV (" ++ filepath ++ "): " ++ e);;
          mret (empty_frame SCHEMA)
      end
  end.

(** The frame [save_player_data] writes: the schema columns, copied from
    [df] where it has them and empty elsewhere. *)
Definition frame_to_save (df : DataFrame) : DataFrame :=
  let df_to_save := empty_frame SCHEMA in
  let df_to_save :=
    foldl (fun acc col =>
             if has_column df col then setitem_series acc col (getitem df col)
             else setitem_scalar acc col (Str ""))
          df_to_save SCHEMA in
  fillna (Str "") (select df_to_save SCHEMA).

(** [save_player_data(df, clan_tag)] *)
Definition save_player_data (df : DataFrame) (clan_tag : string) : App unit :=
  filepath ← get_clan_csv_filename clan_tag;
  match filepath with
  | None => mret tt
  | Some filepath =>
      let df_to_save := frame_to_save df in
      fs ← get_disk;
      match write_error fs with
      | Some e => st_error ("Erro ao salvar o arquivo CSV (" ++ filepath ++ "): " ++ e)
      | None =>
          put_disk (mkFS (dir_exists fs) (makedirs_error fs) (write_error fs)
                         (<[filepath := to_csv df_to_save]> (files fs)))
      end
  end.

(** [convert_df_to_csv(df)] *)
Definition convert_df_to_csv (df : DataFrame) : csv_file := to_csv df.

(** ** Session updates *)

Definition set_api_token (v : option string) (s : Session) : Session :=
  mkSession v (clan_tag s) (members_data s) (river_race_data s)
            (data_loaded_for_tag s) (editor_keys s) (player_phone_data s).

Definition set_clan_tag (v : option string) (s : Session) : Session :=
  mkSession (api_token s) v (members_data s) (river_race_data s)
            (data_loaded_for_tag s) (editor_keys s) (player_phone_data s).

Definition set_members_data (v : option (list Member)) (s : Session) : Session :=
  mkSession (api_token s) (clan_tag s) v (river_race_data s)
            (data_loaded_for_tag s) (editor_keys s) (player_phone_data s).

Definition set_river_race_data (v : option RiverRace) (s : Session) : Session :=
  mkSession (api_token s) (clan_tag s) (members_data s) v
            (data_loaded_for_tag s) (editor_keys s) (player_phone_data s).

Definition set_data_loaded_for_tag (v : option string) (s : Session) : Session :=
  mkSession (api_token s) (clan_tag s) (members_data s) (river_race_data s)
            v (editor_keys s) (player_phone_data s).

Definition set_editor_keys (v : gset string) (s : Session) : Session :=
  mkSession (api_token s) (clan_tag s) (members_data s) (river_race_data s)
            (data_loaded_for_tag s) v (player_phone_data s).

Definition set_player_phone_data (v : gmap string DataFrame) (s : Session) : Session :=
  mkSession (api_token s) (clan_tag s) (members_data s) (river_race_data s)
            (data_loaded_for_tag s) (editor_keys s) v.

Definition modify_session (f : Session -> Session) : App unit :=
  s ← get_session; put_session (f s).

(** ** Frames built from API payloads *)

(** [pd.DataFrame(members_data)] *)
Definition members_frame (members : list Member) : DataFrame :=
  mkDF ["tag"; "name"; "expLevel"; "trophies"; "clanRank"; "role"; "donations"; "lastSeen"]
       ((fun m =>
           list_to_map
             [("tag", Str (m_tag m)); ("name", Str (m_name m));
              ("expLevel", Num (m_expLevel m)); ("trophies", Num (m_trophies m));
              ("clanRank", Num (m_clanRank m)); ("role", Str (m_role m));
              ("donations", Num (m_donations m)); ("lastSeen", Str (m_lastSeen m))])
          <$> members).

(** [pd.DataFrame(participants)]: the frame has a [decksUsedToday] column
    as soon as one participant carries the key, and a participant without it
    gets a missing value there. *)
Definition has_decks (participants : list Participant) : bool :=
  existsb (fun p => bool_decide (is_Some (p_decksUsedToday p))) participants.

Definition participant_row (with_decks : bool) (p : Participant) : gmap string cell :=
  let base : gmap string cell :=
    list_to_map
      [("tag", Str (p_tag p)); ("name", Str (p_name p)); ("fame", Num (p_fame p));
       ("repairPoints", Num (p_repairPoints p)); ("boatAttacks", Num (p_boatAttacks p))] in
  if with_decks then
    <["decksUsedToday" := match p_decksUsedToday p with Some n => Num n | None => NaN end]> base
  else base.

Definition participants_frame (participants : list Participant) : DataFrame :=
  let with_decks := has_decks participants in
  mkDF (["tag"; "name"; "fame"; "repairPoints"; "boatAttacks"]
          ++ (if with_decks then ["decksUsedToday"] else []))
       (participant_row with_decks <$> participants).

(** ** Reconciliation *)

(** [members_df] and [current_member_tags] of the display. *)
Definition members_df_of (members_data : list Member) : DataFrame :=
  match members_data with
  | [] => empty_frame []
  | _ => members_frame members_data
  end.

Definition current_member_tags_of (members_df : DataFrame) : gset cell :=
  if negb (df_empty members_df) then list_to_set (getitem members_df "tag") else ∅.

(** [participants_df], with the column added when the API sent none. *)
Definition participants_df_of (participants : list Participant) : DataFrame :=
  let participants_df := participants_frame participants in
  if negb (has_column participants_df "decksUsedToday")
  then setitem_scalar participants_df "decksUsedToday" (Num 0)
  else participants_df.

(** [participants_df[participants_df['decksUsedToday'] == 0]] *)
Definition missing_attack_today (participants_df : DataFrame) : DataFrame :=
  filter_rows (fun r => eq_zero (cell_at r "decksUsedToday")) participants_df.

Definition missing_tags_today (missing : DataFrame) : gset cell :=
  list_to_set (getitem missing "tag").

Definition verified_missing_tags (missing : DataFrame) (current_member_tags : gset cell)
  : gset cell :=
  missing_tags_today missing ∩ current_member_tags.

Definition unverified_tags (missing : DataFrame) (current_member_tags : gset cell)
  : gset cell :=
  missing_tags_today missing ∖ current_member_tags.

(** [missing_attack_today[missing_attack_today['tag'].isin(tags)]] *)
Definition with_tag_in (tags : gset cell) (missing : DataFrame) : DataFrame :=
  filter_rows (fun r => isin tags (cell_at r "tag")) missing.

Definition verified_missing_players_info (missing : DataFrame)
    (current_member_tags : gset cell) : DataFrame :=
  select (with_tag_in (verified_missing_tags missing current_member_tags) missing)
         ["tag"; "name"].

(** The table of the phone editor. *)
Definition combined_data (members_df player_phone_data_loaded : DataFrame) : DataFrame :=
  let current_members_info := select members_df ["tag"; "name"] in
  fillna_dict [("phone", Str ""); ("name", Str "")]
    (merge_left current_members_info
                (select player_phone_data_loaded ["tag"; "phone"]) "tag").

(** The records of the pending export, before the final projection. *)
Definition missing_players_with_phones (verified_info player_phone_data : DataFrame)
  : DataFrame :=
  fillna_dict [("phone", Str "N/A")]
    (merge_left verified_info (select player_phone_data ["tag"; "phone"]) "tag").

Definition final_missing_list (with_phones : DataFrame) : DataFrame :=
  rename [("name", "Nome"); ("phone", "Telefone")] (select with_phones ["name"; "phone"]).

(** The name of the downloaded file. *)
Definition download_filename (current_tag : string) (t : datetime) : string :=
  let now := strftime "%Y%m%d_%H%M" t in
  "pendentes_" ++ sanitize_filename current_tag ++ "_" ++ now ++ ".csv".

(** [', '.join(names)] *)
Fixpoint join_comma (names : list string) : string :=
  match names with
  | [] => ""
  | [x] => x
  | x :: rest => x ++ ", " ++ join_comma rest
  end.

(** ** The script *)

(** What the operator did before this run of the script: the text of the two
    boxes ([None] while untouched), the buttons pressed, the edits to the
    phone table and the clock. *)
Record Inputs := mkInputs
  { api_token_box : option string;
    clan_tag_box : option string;
    fetch_clicked : bool;
    data_editor : DataFrame -> DataFrame;
    pending_clicked : bool;
    now : datetime }.

(** How a block of the script ends: it falls through, [st.stop()] or
    [st.rerun()]. *)
Inductive outcome := Continue | Stop | Rerun.

(** The sidebar: both boxes are read and stored on every run; the clan tag
    goes through [.strip().upper()] first. *)
Definition clan_tag_input (text : string) : string := upper (strip text).

Definition sidebar (env : Env) (inp : Inputs) : App unit :=
  emit (WSidebar (WHeader "⚙️ Configurações"));;
  emit (WSidebar (WSubheader "🔑 Chave da API"));;
  s ← get_session;
  (if bool_decide (api_token s = None)
   then modify_session (set_api_token (Some (default "" (CLASH_ROYALE_API_TOKEN env))))
   else mret tt);;
  s ← get_session;
  let api_token_input := default (default "" (api_token s)) (api_token_box inp) in
  modify_session (set_api_token (Some api_token_input));;
  (if truthy (Some api_token_input)
   then emit (WSidebar (WSuccess "Token da API carregado."))
   else emit (WSidebar (WWarning "Token da API não definido.")));;
  emit (WSidebar (WSubheader "🏷️ Clã"));;
  s ← get_session;
  (if bool_decide (clan_tag s = None)
   then modify_session (set_clan_tag (Some ""))
   else mret tt);;
  s ← get_session;
  let clan_tag_input := clan_tag_input (default (default "" (clan_tag s)) (clan_tag_box inp)) in
  modify_session (set_clan_tag (Some clan_tag_input)).

(** The body of [if st.sidebar.button("Buscar Dados do Clã")]. *)
Definition fetch_clan_data (env : Env) : App outcome :=
  s ← get_session;
  if negb (truthy (api_token s)) then
    emit (WSidebar (WError "Erro: Chave da API não fornecida."));;
    mret Stop
  else if negb (truthy (clan_tag s)) || negb (startswith (default "" (clan_tag s)) "#") then
    emit (WSidebar (WWarning "Erro: Tag de Clã inválida. Deve começar com '#'."));;
    mret Stop
  else
    let clan_tag := default "" (clan_tag s) in
    let user_api_token := api_token s in
    members_data ← get_clan_members env clan_tag user_api_token;
    river_race_data ← get_current_river_race env clan_tag user_api_token;
    match members_data with
    | None =>
        st_error ("Falha ao buscar dados do clã " ++ clan_tag
                  ++ ". Verifique o log de erros acima.");;
        modify_session (set_members_data None);;
        modify_session (set_river_race_data None);;
        modify_session (set_data_loaded_for_tag None);;
        mret Stop
    | Some [] =>
        st_warning ("Nenhum membro encontrado para o clã " ++ clan_tag
                    ++ ". A tag está correta?");;
        modify_session (set_members_data (Some []));;
        modify_session (set_river_race_data
                          (Some (if race_truthy river_race_data
                                 then river_race_data else empty_dict)));;
        modify_session (set_data_loaded_for_tag (Some clan_tag));;
        mret Continue
    | Some members =>
        modify_session (set_members_data (Some members));;
        modify_session (set_river_race_data
                          (Some (if race_truthy river_race_data
                                 then river_race_data else empty_dict)));;
        modify_session (set_data_loaded_for_tag (Some clan_tag));;
        st_success ("Dados do clã " ++ clan_tag ++ " carregados!");;
        let editor_key := "data_editor_phones_" ++ sanitize_filename clan_tag in
        modify_session (fun s => set_editor_keys (editor_keys s ∖ {[editor_key]}) s);;
        mret Rerun
    end.

(** Left column: the roster and the phone editor. *)
Definition members_column (inp : Inputs) (current_tag : string)
    (members_data : list Member) (members_df : DataFrame) : App unit :=
  st_subheader ("👥 Membros (" ++ decimal (N.of_nat (length members_data)) ++ ")");;
  (if negb (df_empty members_df) then
     emit (WDataframe
             (rename [("tag", "Tag"); ("name", "Nome"); ("expLevel", "Nível XP");
                      ("trophies", "Troféus"); ("clanRank", "Rank Clã"); ("role", "Cargo");
                      ("donations", "Doações"); ("lastSeen", "Visto por Último")]
                (select members_df ["tag"; "name"; "expLevel"; "trophies"; "clanRank";
                                    "role"; "donations"; "lastSeen"])))
   else st_info "Nenhum membro para exibir.");;
  st_subheader "📞 Gerenciar Telefones";;
  if negb (df_empty members_df) then
    player_phone_data_loaded ← load_player_data current_tag;
    let combined_data := combined_data members_df player_phone_data_loaded in
    let editor_key := "data_editor_phones_" ++ sanitize_filename current_tag in
    emit (WDataEditor editor_key (select combined_data ["tag"; "name"; "phone"]));;
    modify_session (fun s => set_editor_keys (editor_keys s ∪ {[editor_key]}) s);;
    let edited_data := data_editor inp (select combined_data ["tag"; "name"; "phone"]) in
    let original_phones := fillna (Str "") (select combined_data ["tag"; "phone"]) in
    let edited_phones := fillna (Str "") (select edited_data ["tag"; "phone"]) in
    if negb (bool_decide (original_phones = edited_phones)) then
      save_player_data edited_data current_tag;;
      st_success ("Telefones atualizados para o clã " ++ current_tag ++ "!");;
      modify_session (fun s =>
        set_player_phone_data (<[current_tag := edited_data]> (player_phone_data s)) s)
    else mret tt
  else st_info "Carregue os dados de um clã para gerenciar telefones.".

(** The body of [if st.button("Gerar Lista de Pendentes")]. *)
Definition pending_report (inp : Inputs) (current_tag : string)
    (participants_df : DataFrame) (current_member_tags : gset cell) : App unit :=
  let missing := missing_attack_today participants_df in
  if negb (df_empty missing) then
    let verified := verified_missing_tags missing current_member_tags in
    let unverified := unverified_tags missing current_member_tags in
    (if negb (bool_decide (unverified = ∅)) then
       let names_unverified := getitem (with_tag_in unverified missing) "name" in
       st_warning ("⚠️ Jogadores com 0 decks usados hoje, mas que **não estão mais na lista de membros** (podem ter saído): "
                   ++ join_comma (cell_text <$> names_unverified))
     else mret tt);;
    if bool_decide (verified = ∅) then
      st_success "✅ Nenhum jogador *atual do clã* está com ataques pendentes hoje!"
    else
      let verified_info := verified_missing_players_info missing current_member_tags in
      player_phone_data ← load_player_data current_tag;
      let with_phones := missing_players_with_phones verified_info player_phone_data in
      let final := final_missing_list with_phones in
      st_write ("Jogadores **atuais do clã** com ataques pendentes hoje ("
                ++ decimal (N.of_nat (length (rows final))) ++ "):");;
      emit (WDataframe final);;
      let csv_data := convert_df_to_csv final in
      emit (WDownload "📥 Baixar Lista de Pendentes (.csv)" csv_data
                      (download_filename current_tag (now inp)))
  else st_success "✅ Todos os participantes da corrida utilizaram seus decks hoje!".

Definition show_or_na (v : option string) : string := default "N/A" v.

(** Right column: the river race. *)
Definition river_race_column (inp : Inputs) (current_tag : string)
    (river_race_data : RiverRace) (current_member_tags : gset cell) : App unit :=
  st_subheader "⚔️ Corrida de Rio Atual";;
  if race_truthy river_race_data
     && negb (bool_decide (rr_state river_race_data = Some "notInWar")) then
    let state := default "N/A" (rr_state river_race_data) in
    st_write ("**Estado:** " ++ title (replace_underscore state));;
    (match rr_clan river_race_data with
     | Some clan_info =>
         if clan_truthy clan_info then
           emit (WMetric "Fama do Clã" (default 0 (ci_fame clan_info)));;
           let participants := default [] (ci_participants clan_info) in
           emit (WMetric "Participantes na Guerra" (Z.of_nat (length participants)));;
           emit (WMetric "Pontos de Reparo" (default 0 (ci_repairPoints clan_info)));;
           match participants with
           | _ :: _ =>
               let participants_df := participants_df_of participants in
               emit (WDataframe
                       (rename [("tag", "Tag"); ("name", "Nome"); ("fame", "Fama");
                                ("repairPoints", "Reparos"); ("boatAttacks", "Ataques Barco");
                                ("decksUsedToday", "Decks Usados Hoje")]
                          (select participants_df
                                  ["tag"; "name"; "fame"; "repairPoints"; "boatAttacks";
                                   "decksUsedToday"])));;
               st_subheader "🚨 Verificar Ataques Pendentes";;
               st_info "Verifica jogadores com 0 'Decks Usados Hoje' que **ainda estão no clã**.";;
               emit (WButton "Gerar Lista de Pendentes");;
               if pending_clicked inp
               then pending_report inp current_tag participants_df current_member_tags
               else mret tt
           | [] => st_write "Nenhum participante encontrado na corrida atual."
           end
         else st_write "Informações detalhadas do clã na corrida não disponíveis."
     | None => st_write "Informações detalhadas do clã na corrida não disponíveis."
     end);;
    emit (WMarkdown "---");;
    st_write ("**Índice da Semana:** "
              ++ show_or_na (decimal_Z <$> rr_sectionIndex river_race_data));;
    st_write ("**Índice do Período:** "
              ++ show_or_na (decimal_Z <$> rr_periodIndex river_race_data));;
    st_write ("**Tipo do Período:** " ++ show_or_na (rr_periodType river_race_data));;
    st_write ("**Fim da Guerra/Coleta:** " ++ show_or_na (rr_warEndTime river_race_data))
  else
    st_info "O clã não está participando de uma Corrida de Rio no momento ou os dados não puderam ser carregados.".

(** The display below the handler. *)
Definition display (inp : Inputs) : App unit :=
  s ← get_session;
  if truthy (data_loaded_for_tag s) then
    let current_tag := default "" (data_loaded_for_tag s) in
    emit (WHeader ("Dados do Clã: " ++ current_tag));;
    let members_data := default [] (members_data s) in
    let river_race_data := default empty_dict (river_race_data s) in
    let members_df := members_df_of members_data in
    let current_member_tags := current_member_tags_of members_df in
    members_column inp current_tag members_data members_df;;
    river_race_column inp current_tag river_race_data current_member_tags
  else if negb (truthy (clan_tag s)) then
    st_info "⬅️ Por favor, insira a Tag do Clã e a Chave da API na barra lateral e clique em 'Buscar Dados do Clã'."
  else if negb (truthy (api_token s)) then
    st_warning "⬅️ Por favor, insira a Chave da API na barra lateral para continuar."
  else mret tt.

(** One execution of the script, top to bottom. *)
Definition script_pass (env : Env) (inp : Inputs) : App outcome :=
  emit (WTitle "📊 Painel do Clã - Clash Royale v3");;
  sidebar env inp;;
  o ← (if fetch_clicked inp then fetch_clan_data env else mret Continue);
  match o with
  | Continue => display inp;; mret Continue
  | _ => mret o
  end.

(** A run: the page starts blank; [st.rerun()] executes the script once more
    with the same boxes and no button pressed. *)
Definition blank (w : World) : World := mkWorld (session w) (disk w) [].

Definition released (inp : Inputs) : Inputs :=
  mkInputs (api_token_box inp) (clan_tag_box inp) false (data_editor inp) false (now inp).

Definition run (env : Env) (inp : Inputs) (w : World) : World :=
  match script_pass env inp (blank w) with
  | (Rerun, w') => (script_pass env (released inp) (blank w')).2
  | (_, w') => w'
  end.

(** ** Inputs that differ in case or outer white space *)

(** The same letter in either case: both are letters and their codes agree
    apart from bit 5. *)
Definition same_letter (x y : ascii) : bool :=
  is_alpha x && is_alpha y && (N.lor (code x) 32 =? N.lor (code y) 32)%N.

Definition char_variant (x y : ascii) : bool := Ascii.eqb x y || same_letter x y.

Fixpoint case_variant (a b : string) : bool :=
  match a, b with
  | EmptyString, EmptyString => true
  | String x a', String y b' => char_variant x y && case_variant a' b'
  | _, _ => false
  end.



Definition all_ascii : list ascii := ascii_of_nat <$> seq 0 256.

(** ** The export name, in the words of its pattern *)

(** [w] decimal digits of [n], most significant first. *)
Fixpoint fixed_digits (w : nat) (n : N) : string :=
  match w with
  | O => EmptyString
  | S w' => fixed_digits w' (n / 10) ++ String (digit_char (n mod 10)) EmptyString
  end.

(** The stamp [YYYYMMDD_HHMM]. *)
Definition YYYYMMDD_HHMM (t : datetime) : string :=
  fixed_digits 4 (year t) ++ fixed_digits 2 (month t) ++ fixed_digits 2 (day t)
  ++ "_" ++ fixed_digits 2 (hour t) ++ fixed_digits 2 (minute t).

(** A time the clock can show, with a four-digit year. *)
Definition clock_time (t : datetime) : Prop :=
  (1000 <= year t <= 9999 /\ 1 <= month t <= 12 /\ 1 <= day t <= 31
   /\ hour t <= 23 /\ minute t <= 59)%N.

(** ** Reading the participants frame *)

(** The row of [participants_df] for a participant [p] of [participants],
    and the cell it holds under [decksUsedToday]. *)
Definition participants_df_row (participants : list Participant) (p : Participant)
  : gmap string cell :=
  if has_decks participants then participant_row true p
  else <["decksUsedToday" := Num 0]> (participant_row false p).

Definition decks_cell (participants : list Participant) (p : Participant) : cell :=
  if has_decks participants
  then match p_decksUsedToday p with Some n => Num n | None => NaN end
  else Num 0.

(** What the river race column adds to the page for a clan out of war. *)
Definition NOT_IN_WAR_PAGE : list widget :=
  [WSubheader "⚔️ Corrida de Rio Atual";
   WInfo "O clã não está participando de uma Corrida de Rio no momento ou os dados não puderam ser carregados."].

(** A way for the roster request to fail: no response at all, or a response
    with an error status. *)
Inductive failure :=
| NoResponse (exc : string)
| ErrorStatus (exc : string) (status : Z) (detail : option (option string * option string))
              (text : string).

Definition failing {A} (f : failure) : response A :=
  match f with
  | NoResponse exc => Failed exc
  | ErrorStatus exc status detail text => Refused exc status detail text
  end.

(** The contact store holds a record under [tag]: [tag] is among the cells
    of its [tag] column. *)
Definition stored (store : DataFrame) (tag : cell) : Prop := tag ∈ getitem store "tag".

(** The table joined with the phones of the store, after [fillna(d)]: each
    row comes from a left row [l] and the phone cell [ph] the join found for
    it, missing when the store has no record under the tag of [l]. *)
Definition phone_join (d : list (string * cell)) (left store : DataFrame) : DataFrame :=
  fillna_dict d (merge_left (select left ["tag"; "name"])
                            (select store ["tag"; "phone"]) "tag").

Definition joined_cells (d : list (string * cell)) (l : gmap string cell) (ph : cell)
    (row : gmap string cell) : Prop :=
  cell_at row "tag" = fill_from d "tag" (cell_at l "tag")
  /\ cell_at row "name" = fill_from d "name" (cell_at l "name")
  /\ cell_at row "phone" = fill_from d "phone" ph.

(** The contact records of a table: its cells under [tag], [name], [phone]. *)
Definition triples (df : DataFrame) : list (cell * cell * cell) :=
  (fun r => (cell_at r "tag", cell_at r "name", cell_at r "phone")) <$> rows df.

(** A world with nothing loaded and an empty data directory. *)
Definition fresh_world : World :=
  mkWorld (mkSession None None None None None ∅ ∅) (mkFS true None None ∅) [].

(** What a saved cell reads back as: its text, parsed, then [fillna('')]. *)
Definition reload_cell (c : cell) : cell := fill (Str "") (parse_field (cell_text c)).

Definition reload_triple (t : cell * cell * cell) : cell * cell * cell :=
  (reload_cell t.1.1, reload_cell t.1.2, reload_cell t.2).

(** A cell that survives the trip: a string that is empty or is none of the
    reader's missing-value markers. *)
Definition plain (c : cell) : Prop :=
  exists s, c = Str s /\ (s = "" \/ s ∉ na_values).

(** The data directory is there or can be made, and files can be written. *)
Definition disk_usable (fs : FileSystem) : Prop :=
  (dir_exists fs = true \/ makedirs_error fs = None) /\ write_error fs = None.

(** The record [save_player_data] keeps for a row of the caller's table: a
    schema column the table has is copied, missing values as the empty
    string; a schema column it lacks is the empty string. *)
Definition normalized_cell (df : DataFrame) (col : string) (r : gmap string cell) : cell :=
  if has_column df col then fill (Str "") (cell_at r col) else Str "".

Definition normalized_triple (df : DataFrame) (r : gmap string cell)
  : cell * cell * cell :=
  (normalized_cell df "tag" r, normalized_cell df "name" r, normalized_cell df "phone" r).

(** ** Reading the page *)

Definition is_error (x : widget) : bool :=
  match x with
  | WError _ => true
  | _ => false
  end.

Definition is_download (x : widget) : bool :=
  match x with
  | WDownload _ _ _ => true
  | _ => false
  end.

(** A character a quoted path may hold. *)
Definition is_url_char (c : ascii) : bool := is_unreserved c || Ascii.eqb c "%".

(** The URL of the roster of a clan. *)
Definition members_url (clan_tag : string) : string :=
  BASE_API_URL ++ "/" ++ "clans/" ++ quote clan_tag ++ "/members".

(** ** Reading the contact store *)

(** The path of the contact file of a clan. *)
Definition contact_path (clan_tag : string) : string :=
  PLAYER_DATA_DIR ++ "/" ++ "dados_jogadores_" ++ sanitize_filename clan_tag ++ ".csv".

(** A cell as the CSV reader leaves it: missing, or a string that is none
    of its missing-value markers. *)
Definition readable (c : cell) : Prop := c = NaN \/ plain c.

(** The fields of a saved record. *)
Definition record_of (t : cell * cell * cell) : list string :=
  [cell_text t.1.1; cell_text t.1.2; cell_text t.2].

(** ** Reading the phone editor *)

(** The table the phone editor shows for a roster, given the disk. *)
Definition editor_table (current_tag : string) (members_df : DataFrame) (w : World)
  : DataFrame :=
  select (combined_data members_df (load_player_data current_tag w).1)
         ["tag"; "name"; "phone"].

(** The [tag] and [phone] columns the script compares before writing. *)
Definition phones_of (df : DataFrame) : DataFrame :=
  fillna (Str "") (select df ["tag"; "phone"]).

(** ** Reading the pending report *)

(** The joined table behind the export, for the participants, the member
    tags and the contact store on disk. *)
Definition pending_with_phones (current_tag : string) (participants_df : DataFrame)
    (current_member_tags : gset cell) (w : World) : DataFrame :=
  missing_players_with_phones
    (verified_missing_players_info (missing_attack_today participants_df)
                                   current_member_tags)
    (load_player_data current_tag w).1.

(** The record the export holds for a row of the joined table. *)
Definition export_record (r : gmap string cell) : list string :=
  [cell_text (cell_at r "name"); cell_text (cell_at r "phone")].

(** ** Reading the session *)

(** What a fetch loads into the session. *)
Definition loaded_data (s : Session)
  : option (list Member) * option RiverRace * option string :=
  (members_data s, river_race_data s, data_loaded_for_tag s).

(* ================================================================== *)
(** * Properties *)

(** ** Strings *)

Lemma get_map_str (f : ascii -> ascii) (s : string) (i : nat) :
  String.get i (map_str f s) = f <$> String.get i s.
Proof.
  revert i. induction s as [|c r IH]; intros [|i]; simpl; auto.
Qed.

Lemma length_map_str (f : ascii -> ascii) (s : string) :
  String.length (map_str f s) = String.length s.
Proof. induction s; simpl; congruence. Qed.

Lemma forall_str_map_fix (p : ascii -> bool) (f : ascii -> ascii) (s : string) :
  (forall c, p (f c) = true) -> forall_str p (map_str f s) = true.
Proof.
  intros Hp. induction s as [|c r IH]; simpl; [reflexivity|].
  now rewrite Hp, IH.
Qed.

Lemma map_str_id_on (p : ascii -> bool) (f : ascii -> ascii) (s : string) :
  (forall c, p c = true -> f c = c) -> forall_str p s = true -> map_str f s = s.
Proof.
  intros Hf. induction s as [|c r IH]; simpl; [reflexivity|].
  intros [Hc Hr]%andb_true_iff. now rewrite Hf, IH.
Qed.

Lemma underscore_is_word_char : is_word_char "_" = true.
Proof. reflexivity. Qed.

Lemma hash_is_not_word_char : is_word_char "#" = false.
Proof. reflexivity. Qed.

Lemma sub_non_word_clean (s : string) :
  forall_str is_word_char (sub_non_word s) = true.
Proof.
  apply forall_str_map_fix. intros c.
  destruct (is_word_char c) eqn:E; [exact E | reflexivity].
Qed.

Lemma sub_leading_hash_clean (s : string) :
  forall_str is_word_char s = true -> sub_leading_hash s = s.
Proof.
  destruct s as [|c r]; [reflexivity|]. simpl.
  intros [Hc _]%andb_true_iff.
  destruct c as [[] [] [] [] [] [] [] []]; try reflexivity; discriminate Hc.
Qed.

(** C7. [sanitize_filename] removes one leading ['#'] and then replaces, one
    for one, every character outside [[A-Za-z0-9_]] by ['_']; so its result
    holds only characters of that class, and sanitizing twice is sanitizing
    once. *)
Theorem sanitize_filename_spec (tag : string) :
  (exists body,
      (tag = String "#" body \/ (tag = body /\ String.prefix "#" tag = false))
      /\ String.length (sanitize_filename tag) = String.length body
      /\ forall i c, String.get i body = Some c ->
           String.get i (sanitize_filename tag)
           = Some (if is_word_char c then c else "_"%char))
  /\ forall_str is_word_char (sanitize_filename tag) = true
  /\ sanitize_filename (sanitize_filename tag) = sanitize_filename tag.
Proof.
  unfold sanitize_filename. split; [|split].
  - exists (sub_leading_hash tag). split; [|split].
    + destruct tag as [|c r]; [right; split; reflexivity|].
      simpl. destruct (Ascii.eqb c "#") eqn:E.
      * apply Ascii.eqb_eq in E. subst c. left. reflexivity.
      * right. split.
        -- destruct c as [[] [] [] [] [] [] [] []]; try reflexivity; discriminate E.
        -- destruct c as [[] [] [] [] [] [] [] []]; try reflexivity; discriminate E.
    + apply length_map_str.
    + intros i c Hi. unfold sub_non_word. now rewrite get_map_str, Hi.
  - apply sub_non_word_clean.
  - rewrite sub_leading_hash_clean by apply sub_non_word_clean.
    apply map_str_id_on with (p := is_word_char); [|apply sub_non_word_clean].
    intros c Hc. now rewrite Hc.
Qed.

Lemma in_all_ascii (c : ascii) : In c all_ascii.
Proof.
  unfold all_ascii. rewrite <- (ascii_nat_embedding c).
  apply in_map, in_seq. pose proof (nat_ascii_bounded c). lia.
Qed.






Lemma case_variant_empty_l (b : string) : case_variant "" b = true -> b = "".
Proof. destruct b; [reflexivity | discriminate]. Qed.








(** ** The clan tag box *)





(** ** The name of the exported file *)

Lemma for_all_below (p : N -> bool) (bound : N) :
  forallb p (N.of_nat <$> seq 0 (N.to_nat bound)) = true ->
  forall n, (n < bound)%N -> p n = true.
Proof.
  intros H n Hn. rewrite forallb_forall in H. apply H.
  rewrite <- (N2Nat.id n). apply in_map, in_seq. lia.
Qed.

Lemma two_digits (n : N) :
  (n < 100)%N -> zfill 2 (decimal n) = fixed_digits 2 n.
Proof.
  intros Hn. apply String.eqb_eq.
  apply (for_all_below (fun n => String.eqb (zfill 2 (decimal n)) (fixed_digits 2 n)) 100);
    [vm_compute; reflexivity | exact Hn].
Qed.

Lemma four_digits (n : N) :
  (1000 <= n <= 9999)%N -> decimal n = fixed_digits 4 n.
Proof.
  intros [Hlo Hhi]. apply String.eqb_eq.
  revert Hlo. rewrite <- N.leb_le. apply implb_true_iff.
  apply (for_all_below
           (fun n => implb (1000 <=? n)%N (String.eqb (decimal n) (fixed_digits 4 n)))
           10000);
    [vm_compute; reflexivity | lia].
Qed.

Lemma append_empty_r (s : string) : s ++ "" = s.
Proof.
  induction s as [|c s IH]; [reflexivity|].
  change (String c s ++ "") with (String c (s ++ "")). now rewrite IH.
Qed.

Lemma strftime_stamp (t : datetime) :
  clock_time t -> strftime "%Y%m%d_%H%M" t = YYYYMMDD_HHMM t.
Proof.
  intros (Hy & Hm & Hd & Hh & Hmi).
  unfold YYYYMMDD_HHMM.
  rewrite <- (four_digits (year t)) by exact Hy.
  rewrite <- !two_digits by lia.
  cbn. now rewrite append_empty_r.
Qed.

(** C5 (as the code has it). The export is named
    [pendentes_<sanitized clan tag>_<YYYYMMDD_HHMM>.csv]: the prefix is
    [pendentes_], not [pending_]; for clan [#QPYL8YCV] at 2024-05-01 09:03
    the name is [pendentes_QPYL8YCV_20240501_0903.csv]. *)
Theorem download_filename_pattern (current_tag : string) (t : datetime) :
  clock_time t ->
  download_filename current_tag t
  = "pendentes_" ++ sanitize_filename current_tag ++ "_" ++ YYYYMMDD_HHMM t ++ ".csv"
  /\ download_filename "#QPYL8YCV" (mkDatetime 2024 5 1 9 3)
     = "pendentes_QPYL8YCV_20240501_0903.csv".
Proof.
  intros Ht. split; [|vm_compute; reflexivity].
  unfold download_filename. now rewrite (strftime_stamp t Ht).
Qed.

Lemma download_filename_pattern_witness :
  clock_time (mkDatetime 2025 12 31 23 59)
  /\ download_filename "#2PP" (mkDatetime 2025 12 31 23 59)
     = "pendentes_" ++ sanitize_filename "#2PP" ++ "_"
       ++ YYYYMMDD_HHMM (mkDatetime 2025 12 31 23 59) ++ ".csv"
  /\ download_filename "#QPYL8YCV" (mkDatetime 2024 5 1 9 3)
     = "pendentes_QPYL8YCV_20240501_0903.csv".
Proof.
  assert (H : clock_time (mkDatetime 2025 12 31 23 59)).
  { unfold clock_time. simpl. lia. }
  split; [exact H|].
  exact (download_filename_pattern "#2PP" (mkDatetime 2025 12 31 23 59) H).
Defined.

(** C5, as stated, fails: the name the code gives the export of clan
    [#QPYL8YCV] at 2024-05-01 09:03 is not [pending_QPYL8YCV_20240501_0903.csv]. *)
Lemma download_filename_not_pending :
  download_filename "#QPYL8YCV" (mkDatetime 2024 5 1 9 3)
  <> "pending_QPYL8YCV_20240501_0903.csv".
Proof. vm_compute. discriminate. Qed.

(** ** Frames *)

Lemma elem_of_filter_rows (p : gmap string cell -> bool) (df : DataFrame)
    (r : gmap string cell) :
  r ∈ rows (filter_rows p df) <-> r ∈ rows df /\ p r = true.
Proof.
  unfold filter_rows. simpl. rewrite !list_elem_of_In. apply filter_In.
Qed.

Lemma elem_of_getitem (df : DataFrame) (col : string) (c : cell) :
  c ∈ getitem df col <-> exists r, r ∈ rows df /\ c = cell_at r col.
Proof.
  unfold getitem. rewrite list_elem_of_fmap. split; intros (r & H1 & H2); eauto.
Qed.

Lemma participants_df_rows (participants : list Participant) :
  rows (participants_df_of participants)
  = participants_df_row participants <$> participants.
Proof.
  unfold participants_df_of, participants_frame, participants_df_row, has_column.
  destruct (has_decks participants); simpl.
  - reflexivity.
  - rewrite <- list_fmap_compose. reflexivity.
Qed.

Lemma participants_df_row_cells (participants : list Participant) (p : Participant) :
  cell_at (participants_df_row participants p) "tag" = Str (p_tag p)
  /\ cell_at (participants_df_row participants p) "name" = Str (p_name p)
  /\ cell_at (participants_df_row participants p) "decksUsedToday"
     = decks_cell participants p.
Proof.
  unfold participants_df_row, decks_cell.
  destruct (has_decks participants); repeat split; reflexivity.
Qed.

Lemma members_df_tags (members : list Member) (t : cell) :
  t ∈ current_member_tags_of (members_df_of members)
  <-> exists m, m ∈ members /\ t = Str (m_tag m).
Proof.
  unfold current_member_tags_of, members_df_of.
  destruct members as [|m0 ms].
  - simpl. split; [intros H; exfalso; revert H; apply not_elem_of_empty|].
    intros (m & Hm & _). inversion Hm.
  - change (df_empty (members_frame (m0 :: ms))) with false. cbv beta iota delta [negb].
    generalize (m0 :: ms). clear m0 ms. intros members.
    rewrite elem_of_list_to_set, elem_of_getitem.
    unfold members_frame. cbn [rows]. split.
    + intros (r & Hr & ->). apply list_elem_of_fmap in Hr as (m & -> & Hm).
      exists m. split; [exact Hm | reflexivity].
    + intros (m & Hm & ->). eexists. split.
      * apply list_elem_of_fmap. exists m. split; [reflexivity | exact Hm].
      * reflexivity.
Qed.

Lemma zero_deck_tags (participants : list Participant) (t : cell) :
  t ∈ missing_tags_today (missing_attack_today (participants_df_of participants))
  <-> exists p, p ∈ participants /\ t = Str (p_tag p)
                /\ eq_zero (decks_cell participants p) = true.
Proof.
  unfold missing_tags_today, missing_attack_today.
  rewrite elem_of_list_to_set, elem_of_getitem. split.
  - intros (r & [Hr Hz]%elem_of_filter_rows & ->).
    rewrite participants_df_rows in Hr.
    apply list_elem_of_fmap in Hr as (p & -> & Hp).
    destruct (participants_df_row_cells participants p) as (Ht & _ & Hd).
    exists p. rewrite Ht, <- Hd. auto.
  - intros (p & Hp & -> & Hz).
    destruct (participants_df_row_cells participants p) as (Ht & _ & Hd).
    exists (participants_df_row participants p). split; [|now rewrite Ht].
    apply elem_of_filter_rows. split; [|now rewrite Hd].
    rewrite participants_df_rows. apply list_elem_of_fmap. eauto.
Qed.

(** ** The pending list *)

(** C1. The tags with [decksUsedToday == 0] are split by membership in the
    roster: the pending (verified) tags are those of the zero-deck set that
    are member tags, the unverified tags are those that are not, the two
    cover the zero-deck set and share nothing; and every row kept for the
    pending list has [decksUsedToday == 0] and the tag of a member. *)
Theorem pending_partition (members : list Member) (participants : list Participant) :
  let current := current_member_tags_of (members_df_of members) in
  let missing := missing_attack_today (participants_df_of participants) in
  let zero := missing_tags_today missing in
  let pending := verified_missing_tags missing current in
  let unverified := unverified_tags missing current in
  (forall t, t ∈ current <-> exists m, m ∈ members /\ t = Str (m_tag m))
  /\ (forall t, t ∈ zero <->
                exists r, r ∈ rows (participants_df_of participants)
                          /\ t = cell_at r "tag"
                          /\ eq_zero (cell_at r "decksUsedToday") = true)
  /\ (forall t, t ∈ pending <-> t ∈ zero /\ t ∈ current)
  /\ (forall t, t ∈ unverified <-> t ∈ zero /\ t ∉ current)
  /\ pending ∪ unverified = zero
  /\ pending ∩ unverified = ∅
  /\ (forall r, r ∈ rows (with_tag_in pending missing) ->
                r ∈ rows (participants_df_of participants)
                /\ eq_zero (cell_at r "decksUsedToday") = true
                /\ exists m, m ∈ members /\ cell_at r "tag" = Str (m_tag m))
  /\ (forall r, r ∈ rows (verified_missing_players_info missing current) ->
                cell_at r "tag" ∈ zero /\ cell_at r "tag" ∈ current).
Proof.
  intros current missing zero pending unverified.
  assert (Hpend : forall t, t ∈ pending <-> t ∈ zero /\ t ∈ current).
  { intros t. unfold pending, verified_missing_tags. apply elem_of_intersection. }
  assert (Hunv : forall t, t ∈ unverified <-> t ∈ zero /\ t ∉ current).
  { intros t. unfold unverified, unverified_tags. apply elem_of_difference. }
  assert (Hkept : forall r, r ∈ rows (with_tag_in pending missing) ->
                            r ∈ rows missing /\ cell_at r "tag" ∈ pending).
  { intros r [Hr Hin]%elem_of_filter_rows. split; [exact Hr|].
    unfold isin in Hin. now apply bool_decide_eq_true in Hin. }
  split; [apply members_df_tags|]. split.
  { intros t. unfold zero, missing_tags_today, missing, missing_attack_today.
    rewrite elem_of_list_to_set, elem_of_getitem. split.
    - intros (r & [Hr Hz]%elem_of_filter_rows & ->). eauto.
    - intros (r & Hr & -> & Hz). exists r. split; [|reflexivity].
      apply elem_of_filter_rows. auto. }
  split; [exact Hpend|]. split; [exact Hunv|]. split.
  { apply set_eq. intros t. rewrite elem_of_union, Hpend, Hunv.
    destruct (decide (t ∈ current)); tauto. }
  split.
  { apply set_eq. intros t. rewrite elem_of_intersection, Hpend, Hunv.
    split; [tauto|]. intros H. exfalso. revert H. apply not_elem_of_empty. }
  split.
  - intros r Hr. destruct (Hkept r Hr) as [Hm Ht].
    apply elem_of_filter_rows in Hm as [Hm Hz].
    apply Hpend in Ht as [_ Hc]. apply members_df_tags in Hc.
    auto.
  - intros r Hr. unfold verified_missing_players_info, select in Hr. simpl in Hr.
    apply list_elem_of_fmap in Hr as (r0 & -> & Hr0).
    destruct (Hkept r0 Hr0) as [_ Ht].
    change (cell_at (row_of ["tag"; "name"] (cell_at r0)) "tag") with (cell_at r0 "tag").
    now apply Hpend.
Qed.

(** ** A participant without [decksUsedToday] *)

Lemma absent_column_reads_zero (participants : list Participant) (p : Participant) :
  has_decks participants = false -> p ∈ participants ->
  Str (p_tag p) ∈ missing_tags_today (missing_attack_today (participants_df_of participants)).
Proof.
  intros Hno Hp. apply zero_deck_tags. exists p.
  unfold decks_cell. rewrite Hno. auto.
Qed.

Lemma missing_cell_is_not_zero (participants : list Participant) (p : Participant) :
  has_decks participants = true -> p_decksUsedToday p = None ->
  eq_zero (decks_cell participants p) = false.
Proof. intros Hd Hp. unfold decks_cell. now rewrite Hd, Hp. Qed.

(** C4 (the code departs from it). In a snapshot where one participant
    carries [decksUsedToday] and another does not, the frame has the column,
    the participant without the key holds a missing value there, the filter
    [== 0] rejects it, and it is absent from the zero-deck set. *)
Theorem mixed_snapshot_drops_participant_without_decks :
  let ann := mkParticipant "#A" "Ann" 100 0 1 (Some 3) in
  let bob := mkParticipant "#B" "Bob" 0 0 0 None in
  let participants_df := participants_df_of [ann; bob] in
  p_decksUsedToday bob = None
  /\ has_column participants_df "decksUsedToday" = true
  /\ getitem participants_df "decksUsedToday" = [Num 3; NaN]
  /\ rows (missing_attack_today participants_df) = []
  /\ Str "#B" ∉ missing_tags_today (missing_attack_today participants_df).
Proof.
  intros ann bob participants_df.
  repeat split; try reflexivity.
  change (missing_tags_today (missing_attack_today participants_df)) with (∅ : gset cell).
  apply not_elem_of_empty.
Qed.

(** ** Fetching the roster *)

Lemma get_clan_members_fst (env : Env) (clan_tag : string) (tok : option string)
    (w : World) :
  (get_clan_members env clan_tag tok w).1
  = match (fetch_api_data (get_members env) env
                          ("clans/" ++ quote clan_tag ++ "/members") tok w).1 with
    | Some d => if payload_truthy d then Some (default [] (items d)) else Some []
    | None => Some []
    end.
Proof.
  unfold get_clan_members. cbv beta zeta. unfold mbind, App_bind.
  destruct (fetch_api_data _ _ _ _ w) as [data w']. reflexivity.
Qed.

Lemma fetch_api_data_fails {A} (get : string -> string -> response A) (env : Env)
    (endpoint : string) (tok : option string) (w : World) :
  (forall url headers body, get url headers <> Replied body) ->
  (fetch_api_data get env endpoint tok w).1 = None.
Proof.
  intros Hfail. unfold fetch_api_data.
  destruct (get_api_headers env tok) as [headers|]; [|reflexivity].
  destruct (get _ headers) as [body| exc status detail text | exc] eqn:E.
  - exfalso. exact (Hfail _ _ _ E).
  - unfold mbind, App_bind.
    destruct (st_error _ w) as [[] w1].
    destruct detail as [[reason message]|].
    + destruct (status =? 403); [|destruct (status =? 404)];
        match goal with |- context [st_error ?m w1] =>
          destruct (st_error m w1) as [[] w2] end; reflexivity.
    + destruct (st_error _ w1) as [[] w2]. reflexivity.
  - unfold mbind, App_bind. destruct (st_error _ w) as [[] w1]. reflexivity.
Qed.

Lemma get_clan_members_is_list (env : Env) (clan_tag : string) (tok : option string)
    (w : World) :
  exists members, (get_clan_members env clan_tag tok w).1 = Some members.
Proof.
  rewrite get_clan_members_fst.
  destruct (fetch_api_data _ _ _ _ w).1 as [d|]; [destruct (payload_truthy d)|]; eauto.
Qed.

Lemma get_clan_members_on_failure (env : Env) (clan_tag : string) (tok : option string)
    (w : World) :
  (forall url headers body, get_members env url headers <> Replied body) ->
  (get_clan_members env clan_tag tok w).1 = Some [].
Proof.
  intros Hfail. now rewrite get_clan_members_fst, fetch_api_data_fails.
Qed.

(** C2 (the code departs from it). [get_clan_members] never returns [None]:
    when the request fails, with or without a response, it returns the empty
    list, which is also what it returns for a clan without members. *)
Theorem get_clan_members_failure_is_empty_list :
  (forall env clan_tag user_api_token w,
      exists members, (get_clan_members env clan_tag user_api_token w).1 = Some members)
  /\ (forall token race clan_tag tok w exc,
         (get_clan_members (mkEnv token (fun _ _ => Failed exc) race) clan_tag tok w).1
         = Some [])
  /\ (forall token race clan_tag tok w exc status detail text,
         (get_clan_members
            (mkEnv token (fun _ _ => Refused exc status detail text) race) clan_tag tok w).1
         = Some [])
  /\ (forall token race clan_tag tok w,
         (get_clan_members
            (mkEnv token (fun _ _ => Replied (mkMembersPayload (Some []) false)) race)
            clan_tag tok w).1
         = Some []).
Proof.
  split; [|split; [|split]].
  - apply get_clan_members_is_list.
  - intros. apply get_clan_members_on_failure. discriminate.
  - intros. apply get_clan_members_on_failure. discriminate.
  - intros token race clan_tag tok w. rewrite get_clan_members_fst.
    unfold fetch_api_data. cbn [get_members].
    destruct (get_api_headers _ tok); reflexivity.
Qed.

(** The gateway reports on the page and leaves the session and the disk
    as they are. *)
Lemma fetch_api_data_frame {A} (get : string -> string -> response A) (env : Env)
    (endpoint : string) (tok : option string) (w : World) :
  session (fetch_api_data get env endpoint tok w).2 = session w
  /\ disk (fetch_api_data get env endpoint tok w).2 = disk w.
Proof.
  unfold fetch_api_data.
  destruct (get_api_headers env tok) as [headers|]; [|split; reflexivity].
  destruct (get _ headers) as [body| exc status detail text | exc];
    [split; reflexivity | | split; reflexivity].
  destruct detail as [[reason message]|]; [|split; reflexivity].
  unfold mbind, App_bind. cbn.
  destruct (status =? 403); [|destruct (status =? 404)]; split; reflexivity.
Qed.

Lemma get_clan_members_frame (env : Env) (clan_tag : string) (tok : option string)
    (w : World) :
  session (get_clan_members env clan_tag tok w).2 = session w
  /\ disk (get_clan_members env clan_tag tok w).2 = disk w.
Proof.
  unfold get_clan_members. cbv beta zeta. unfold mbind, App_bind.
  pose proof (fetch_api_data_frame (get_members env) env
                ("clans/" ++ quote clan_tag ++ "/members") tok w) as H.
  destruct (fetch_api_data _ _ _ _ w) as [data w']. exact H.
Qed.


(** Whenever the fetch handler stops the script, the session is what it was:
    the branch that clears the loaded data is never taken. *)
Lemma fetch_clan_data_stop_keeps_session (env : Env) (w : World) :
  (fetch_clan_data env w).1 = Stop ->
  session (fetch_clan_data env w).2 = session w.
Proof.
  unfold fetch_clan_data. unfold mbind, App_bind, get_session.
  destruct (truthy (api_token (session w))); cbn [negb]; [|intros _; reflexivity].
  destruct (truthy (clan_tag (session w))); cbn [negb orb]; [|intros _; reflexivity].
  destruct (startswith _ "#"); cbn [negb]; [|intros _; reflexivity].
  destruct (get_clan_members_is_list
              env (default "" (clan_tag (session w))) (api_token (session w)) w)
    as [members Hm].
  destruct (get_clan_members env _ _ w) as [md w1]. cbn in Hm. subst md.
  destruct (get_current_river_race env _ _ w1) as [rr w2].
  destruct members; cbn; discriminate.
Qed.

(** C3 (the code departs from it). When the roster request fails, the fetch
    handler does not stop and clears nothing: it warns that no member was
    found, stores an empty roster and the river race, and marks the clan as
    loaded, so the display goes on under a loaded state. *)
Theorem fetch_failure_marks_clan_loaded :
  forall token race (f : failure) c tok rest s fs pg,
    let env := mkEnv token (fun _ _ => failing f) race in
    let clan := String "#" rest in
    let w := mkWorld (set_clan_tag (Some clan) (set_api_token (Some (String c tok)) s))
                     fs pg in
    (fetch_clan_data env w).1 = Continue
    /\ members_data (session (fetch_clan_data env w).2) = Some []
    /\ is_Some (river_race_data (session (fetch_clan_data env w).2))
    /\ data_loaded_for_tag (session (fetch_clan_data env w).2) = Some clan
    /\ WWarning ("Nenhum membro encontrado para o clã " ++ clan ++ ". A tag está correta?")
       ∈ page (fetch_clan_data env w).2.
Proof.
  intros token race f c tok rest s fs pg env clan w.
  unfold fetch_clan_data. unfold mbind, App_bind, get_session.
  change (truthy (api_token (session w))) with true.
  change (truthy (clan_tag (session w))) with true.
  change (default "" (clan_tag (session w))) with clan.
  assert (Hp : startswith clan "#" = true).
  { unfold startswith, clan. cbn. destruct (ascii_dec "#" "#"); [|congruence].
    now destruct rest. }
  rewrite Hp. cbn [negb orb].
  pose proof (get_clan_members_on_failure env clan (api_token (session w)) w) as Hm.
  destruct (get_clan_members env clan _ w) as [md w1]. cbn in Hm.
  rewrite Hm by (destruct f; discriminate).
  destruct (get_current_river_race env clan _ w1) as [rr w2].
  cbn. repeat split; eauto.
  apply elem_of_app. right. apply list_elem_of_singleton. reflexivity.
Qed.

(** ** A clan that is not in a river race *)

(** C9. When the state of the river race is [notInWar], the river race
    column shows its heading and the not-participating notice and nothing
    else: no table, no pending list, no download, whatever the snapshot
    holds and whatever the operator pressed; the session and the disk are
    untouched. *)
Theorem not_in_war_skips_pending (inp : Inputs) (current_tag : string)
    (river_race_data : RiverRace) (current_member_tags : gset cell) (w : World) :
  rr_state river_race_data = Some "notInWar" ->
  river_race_column inp current_tag river_race_data current_member_tags w
  = (tt, mkWorld (session w) (disk w) (page w ++ NOT_IN_WAR_PAGE)).
Proof.
  intros H. unfold river_race_column. rewrite H.
  rewrite bool_decide_eq_true_2 by reflexivity.
  rewrite andb_false_r.
  unfold mbind, App_bind, st_subheader, st_info, emit. cbn.
  now rewrite <- app_assoc.
Qed.

Lemma not_in_war_skips_pending_witness :
  let participants := [mkParticipant "#A" "Ann" 0 0 0 (Some 0)] in
  let race := mkRiverRace (Some "notInWar")
                          (Some (mkClanInfo (Some 10) (Some participants) None false))
                          None None None None false in
  let inp := mkInputs None None false (fun df => df) true (mkDatetime 2024 5 1 9 3) in
  let w := mkWorld (mkSession None None None None None ∅ ∅) (mkFS true None None ∅) [] in
  rr_state race = Some "notInWar"
  /\ river_race_column inp "#QPYL8YCV" race {[Str "#A"]} w
     = (tt, mkWorld (session w) (disk w) (page w ++ NOT_IN_WAR_PAGE)).
Proof.
  intros participants race inp w.
  split; [reflexivity|].
  exact (not_in_war_skips_pending inp "#QPYL8YCV" race {[Str "#A"]} w eq_refl).
Defined.

(** ** Left joins with the contact store *)

Lemma elem_of_concat {A} (x : A) (ls : list (list A)) :
  x ∈ concat ls <-> exists l, l ∈ ls /\ x ∈ l.
Proof.
  rewrite list_elem_of_In, in_concat. split; intros (l & H1 & H2); exists l.
  - now rewrite !list_elem_of_In.
  - now rewrite <- !list_elem_of_In.
Qed.

Lemma elem_of_list_filter {A} (p : A -> bool) (l : list A) (x : A) :
  x ∈ List.filter p l <-> x ∈ l /\ p x = true.
Proof. rewrite !list_elem_of_In. apply filter_In. Qed.

Lemma elem_of_merge_left (left right : DataFrame) (key : string)
    (row : gmap string cell) :
  let others := List.filter (fun c => negb (String.eqb c key)) (columns right) in
  row ∈ rows (merge_left left right key) <->
  exists l, l ∈ rows left
    /\ (((forall r, r ∈ rows right -> cell_at r key <> cell_at l key)
         /\ row = join_row others l ∅)
        \/ (exists r, r ∈ rows right /\ cell_at r key = cell_at l key
                      /\ row = join_row others l r)).
Proof.
  intros others. unfold merge_left. cbn [rows]. fold others.
  rewrite elem_of_concat. split.
  - intros (y & Hy & Hrow). apply list_elem_of_fmap in Hy as (l & -> & Hl).
    exists l. split; [exact Hl|].
    destruct (List.filter _ (rows right)) as [|m ms] eqn:E.
    + left. apply list_elem_of_singleton in Hrow. split; [|exact Hrow].
      intros r Hr Heq.
      assert (Hin : r ∈ List.filter
                      (fun r => bool_decide (cell_at r key = cell_at l key)) (rows right)).
      { apply elem_of_list_filter. split; [exact Hr | now apply bool_decide_eq_true]. }
      rewrite E in Hin. inversion Hin.
    + right. apply list_elem_of_fmap in Hrow as (r & -> & Hr).
      rewrite <- E in Hr. apply elem_of_list_filter in Hr as [Hr Hm].
      apply bool_decide_eq_true in Hm. eauto.
  - intros (l & Hl & Hcase).
    eexists. split; [apply list_elem_of_fmap; exists l; split; [reflexivity | exact Hl]|].
    cbv beta.
    destruct Hcase as [[Hno ->] | (r & Hr & Hm & ->)].
    + destruct (List.filter _ (rows right)) as [|m ms] eqn:E.
      * now apply list_elem_of_singleton.
      * exfalso.
        assert (Hin : m ∈ List.filter
                        (fun r => bool_decide (cell_at r key = cell_at l key)) (rows right)).
        { rewrite E. left. }
        apply elem_of_list_filter in Hin as [Hin Hm].
        apply bool_decide_eq_true in Hm. exact (Hno m Hin Hm).
    + assert (Hin : r ∈ List.filter
                      (fun r => bool_decide (cell_at r key = cell_at l key)) (rows right)).
      { apply elem_of_list_filter. split; [exact Hr | now apply bool_decide_eq_true]. }
      destruct (List.filter _ (rows right)) as [|m ms]; [inversion Hin|].
      apply list_elem_of_fmap. eauto.
Qed.

Lemma phone_join_elim (d : list (string * cell)) (left store : DataFrame)
    (row : gmap string cell) :
  row ∈ rows (phone_join d left store) ->
  exists l ph, l ∈ rows left
    /\ ((~ stored store (cell_at l "tag") /\ ph = NaN)
        \/ (exists r, r ∈ rows store /\ cell_at r "tag" = cell_at l "tag"
                      /\ ph = cell_at r "phone"))
    /\ joined_cells d l ph row.
Proof.
  unfold phone_join, fillna_dict, map_cells. cbn [rows columns].
  intros (j & -> & Hj)%list_elem_of_fmap.
  apply elem_of_merge_left in Hj as (l' & Hl' & Hcase).
  unfold select in Hl'. cbn [rows] in Hl'.
  apply list_elem_of_fmap in Hl' as (l & -> & Hl).
  destruct Hcase as [[Hno ->] | (r' & Hr' & Hm & ->)].
  - exists l, NaN. split; [exact Hl|]. split.
    + left. split; [|reflexivity].
      intros (r & Hr & Heq)%elem_of_getitem.
      apply (Hno (row_of ["tag"; "phone"] (cell_at r))).
      * unfold select. cbn [rows]. apply list_elem_of_fmap. eauto.
      * change (cell_at r "tag" = cell_at l "tag"). congruence.
    + repeat split.
  - unfold select in Hr'. cbn [rows] in Hr'.
    apply list_elem_of_fmap in Hr' as (r & -> & Hr).
    exists l, (cell_at r "phone"). split; [exact Hl|]. split.
    + right. exists r. split; [exact Hr|]. split; [exact Hm | reflexivity].
    + repeat split.
Qed.


Lemma members_df_rows (members : list Member) (m : Member) :
  m ∈ members ->
  exists l, l ∈ rows (members_df_of members)
            /\ cell_at l "tag" = Str (m_tag m) /\ cell_at l "name" = Str (m_name m).
Proof.
  intros Hm. destruct members as [|m0 ms]; [inversion Hm|].
  unfold members_df_of. revert Hm. generalize (m0 :: ms). intros members Hm.
  eexists. split.
  - unfold members_frame. cbn [rows]. apply list_elem_of_fmap.
    exists m. split; [reflexivity | exact Hm].
  - split; reflexivity.
Qed.


(** ** Saving and reloading the contact table *)

Lemma frame_to_save_columns (df : DataFrame) : columns (frame_to_save df) = SCHEMA.
Proof. reflexivity. Qed.

(** C6 (the code departs from it). The operator's table for clan
    [#QPYL8YCV] has an extra column and a record whose phone was typed as
    [N/A].  Saving keeps exactly the three schema columns and writes the
    phone as typed; reloading reads that field as a missing value and fills
    it with the empty string, so the reloaded record differs from the saved
    one. *)
Theorem saved_marker_phone_reloads_empty :
  let edited :=
    mkDF ["tag"; "name"; "phone"; "note"]
         [list_to_map [("tag", Str "#A"); ("name", Str "Ann"); ("phone", Str "N/A");
                       ("note", Str "x")];
          list_to_map [("tag", Str "#B"); ("name", Str "Bob"); ("phone", Str "555-0100");
                       ("note", NaN)]] in
  let saved := (save_player_data edited "#QPYL8YCV" fresh_world).2 in
  files (disk saved) !! "dados_clas/dados_jogadores_QPYL8YCV.csv"
  = Some (CsvTable ["tag"; "name"; "phone"]
                   [["#A"; "Ann"; "N/A"]; ["#B"; "Bob"; "555-0100"]])
  /\ triples (frame_to_save edited)
     = [(Str "#A", Str "Ann", Str "N/A"); (Str "#B", Str "Bob", Str "555-0100")]
  /\ columns (load_player_data "#QPYL8YCV" saved).1 = ["tag"; "name"; "phone"]
  /\ triples (load_player_data "#QPYL8YCV" saved).1
     = [(Str "#A", Str "Ann", Str ""); (Str "#B", Str "Bob", Str "555-0100")]
  /\ triples (load_player_data "#QPYL8YCV" saved).1 <> triples (frame_to_save edited).
Proof.
  intros edited saved.
  repeat split; try (vm_compute; reflexivity).
  vm_compute. discriminate.
Qed.

Lemma reload_cell_plain (c : cell) : plain c -> reload_cell c = c.
Proof.
  intros (s & -> & [-> | Hs]); [reflexivity|].
  unfold reload_cell, parse_field. cbn [cell_text].
  now rewrite bool_decide_eq_false_2.
Qed.

Lemma reload_table (rs : list (gmap string cell)) :
  match to_csv (mkDF SCHEMA rs) with
  | CsvTable header records =>
      triples (select (fillna (Str "") (frame_of_table header records)) SCHEMA)
  | _ => []
  end = reload_triple <$> triples (mkDF SCHEMA rs).
Proof.
  unfold to_csv, triples, select, fillna, map_cells, frame_of_table. cbn [rows columns].
  rewrite <- !list_fmap_compose. apply list_fmap_ext. intros i r _. reflexivity.
Qed.

Lemma get_clan_csv_filename_usable (clan_tag : string) (w : World) :
  dir_exists (disk w) = true \/ makedirs_error (disk w) = None ->
  get_clan_csv_filename clan_tag w
  = (Some (PLAYER_DATA_DIR ++ "/" ++ "dados_jogadores_" ++ sanitize_filename clan_tag
           ++ ".csv"),
     mkWorld (session w)
             (mkFS true (makedirs_error (disk w)) (write_error (disk w)) (files (disk w)))
             (page w)).
Proof.
  intros H. unfold get_clan_csv_filename, mbind, App_bind, get_disk.
  destruct w as [s [de me we fl] pg]. cbn in *.
  destruct de; cbn.
  - reflexivity.
  - destruct H as [H | ->]; [discriminate | reflexivity].
Qed.

Lemma save_player_data_usable (df : DataFrame) (clan_tag : string) (w : World) :
  disk_usable (disk w) ->
  (save_player_data df clan_tag w).2
  = mkWorld (session w)
            (mkFS true (makedirs_error (disk w)) (write_error (disk w))
                  (<[PLAYER_DATA_DIR ++ "/" ++ "dados_jogadores_"
                     ++ sanitize_filename clan_tag ++ ".csv" := to_csv (frame_to_save df)]>
                     (files (disk w))))
            (page w).
Proof.
  intros [Hdir Hwrite].
  unfold save_player_data. unfold mbind at 1, App_bind at 1.
  rewrite (get_clan_csv_filename_usable clan_tag w Hdir).
  unfold mbind, App_bind, get_disk. cbn [disk write_error]. rewrite Hwrite.
  reflexivity.
Qed.

Lemma load_player_data_table (clan_tag : string) (w : World)
    (records : list (list string)) :
  dir_exists (disk w) = true ->
  files (disk w) !! (PLAYER_DATA_DIR ++ "/" ++ "dados_jogadores_"
                     ++ sanitize_filename clan_tag ++ ".csv")
  = Some (CsvTable SCHEMA records) ->
  (load_player_data clan_tag w).1
  = select (fillna (Str "") (frame_of_table SCHEMA records)) SCHEMA.
Proof.
  intros Hdir Hfile.
  unfold load_player_data. unfold mbind at 1, App_bind at 1.
  rewrite get_clan_csv_filename_usable by (left; exact Hdir).
  unfold mbind, App_bind, get_disk, read_csv. cbn [disk files].
  rewrite Hfile. reflexivity.
Qed.

(** With a usable disk, what [load_player_data] returns after
    [save_player_data] is the saved table read back cell by cell. *)
Lemma save_then_load (df : DataFrame) (clan_tag : string) (w : World) :
  disk_usable (disk w) ->
  columns (load_player_data clan_tag (save_player_data df clan_tag w).2).1 = SCHEMA
  /\ triples (load_player_data clan_tag (save_player_data df clan_tag w).2).1
     = reload_triple <$> triples (frame_to_save df).
Proof.
  intros Hd. rewrite (save_player_data_usable df clan_tag w Hd).
  pose proof (reload_table (rows (frame_to_save df))) as H.
  change (mkDF SCHEMA (rows (frame_to_save df))) with (frame_to_save df) in H.
  destruct (to_csv (frame_to_save df)) as [| |header records] eqn:E; try discriminate E.
  assert (Hh : header = SCHEMA) by (unfold to_csv in E; now inversion E).
  subst header.
  rewrite (load_player_data_table clan_tag _ records);
    [split; [reflexivity | exact H] | reflexivity |].
  cbn [disk files]. apply lookup_insert_eq.
Qed.

(** For tables whose saved cells are plain, saving and reloading gives back
    the saved records. *)
Lemma save_then_load_plain (df : DataFrame) (clan_tag : string) (w : World) :
  disk_usable (disk w) ->
  (forall t, t ∈ triples (frame_to_save df) -> plain t.1.1 /\ plain t.1.2 /\ plain t.2) ->
  triples (load_player_data clan_tag (save_player_data df clan_tag w).2).1
  = triples (frame_to_save df).
Proof.
  intros Hd Hplain. destruct (save_then_load df clan_tag w Hd) as [_ ->].
  induction (triples (frame_to_save df)) as [|[[t n] p] ts IH]; [reflexivity|].
  cbn [fmap list_fmap]. f_equal.
  - destruct (Hplain (t, n, p)) as (Ht & Hn & Hp); [left|].
    unfold reload_triple. cbn [fst snd] in *.
    now rewrite !reload_cell_plain.
  - apply IH. intros t' Ht'. apply Hplain. now right.
Qed.

(** *** What is saved *)

Lemma setitem_series_first (cols : list string) (col : string)
    (g : gmap string cell -> cell) (l : list (gmap string cell)) :
  l <> [] ->
  setitem_series (mkDF cols []) col (g <$> l)
  = mkDF (add_label cols col)
         ((fun a => <[col := g a]> (row_of cols (fun _ => NaN))) <$> l).
Proof.
  intros Hl. unfold setitem_series. cbn [rows columns].
  destruct l as [|a l]; [congruence|]. clear Hl.
  change (g <$> a :: l) with (g a :: (g <$> l)). cbv iota.
  change (g a :: (g <$> l)) with (g <$> a :: l).
  f_equal. generalize (a :: l). clear a l. intros l.
  apply list_eq. intros i.
  rewrite list_lookup_imap, !list_lookup_fmap, length_fmap.
  destruct (l !! i) as [a|] eqn:E.
  - rewrite lookup_replicate_2 by (apply lookup_lt_Some in E; exact E). reflexivity.
  - assert (Hn : replicate (length l) (row_of cols (fun _ => NaN)) !! i = None).
    { apply lookup_replicate_None. apply lookup_ge_None in E. exact E. }
    rewrite Hn. reflexivity.
Qed.

Lemma setitem_series_aligned (cols : list string) (col : string)
    (g : gmap string cell -> cell) (h : gmap string cell -> gmap string cell)
    (l : list (gmap string cell)) :
  l <> [] ->
  setitem_series (mkDF cols (h <$> l)) col (g <$> l)
  = mkDF (add_label cols col) ((fun a => <[col := g a]> (h a)) <$> l).
Proof.
  intros Hl. unfold setitem_series. cbn [rows columns].
  destruct l as [|a l]; [congruence|]. clear Hl.
  change (h <$> a :: l) with (h a :: (h <$> l)). cbv iota.
  change (h a :: (h <$> l)) with (h <$> a :: l).
  f_equal. generalize (a :: l). clear a l. intros l.
  apply list_eq. intros i.
  rewrite list_lookup_imap, !list_lookup_fmap.
  destruct (l !! i) as [a|]; reflexivity.
Qed.

Lemma setitem_scalar_rows (cols : list string) (col : string) (v : cell)
    (h : gmap string cell -> gmap string cell) (l : list (gmap string cell)) :
  setitem_scalar (mkDF cols (h <$> l)) col v
  = mkDF (add_label cols col) ((fun a => <[col := v]> (h a)) <$> l).
Proof.
  unfold setitem_scalar. cbn [rows columns]. now rewrite <- list_fmap_compose.
Qed.

(** Whatever columns the caller's table has, the saved records are the
    normalized records of its rows; a table with none of the three schema
    columns is saved without records. *)
Lemma frame_to_save_triples (df : DataFrame) :
  triples (frame_to_save df)
  = if has_column df "tag" || has_column df "name" || has_column df "phone"
    then normalized_triple df <$> rows df
    else [].
Proof.
  unfold frame_to_save, normalized_triple, normalized_cell, getitem.
  cbn [foldl SCHEMA].
  destruct (rows df) as [|r0 rs] eqn:Hrows.
  - destruct (has_column df "tag"), (has_column df "name"), (has_column df "phone");
      reflexivity.
  - assert (Hl : r0 :: rs <> []) by discriminate.
    revert Hl. generalize (r0 :: rs). clear Hrows r0 rs. intros l Hl.
    unfold empty_frame.
    destruct (has_column df "tag"), (has_column df "name"), (has_column df "phone");
      cbn [orb];
      repeat first
        [ rewrite setitem_series_first by exact Hl
        | rewrite setitem_series_aligned by exact Hl
        | rewrite setitem_scalar_rows
        | progress change (setitem_scalar (mkDF ?c []) ?k ?v) with (mkDF (add_label c k) []) ];
      unfold triples, fillna, map_cells, select; cbn [rows columns];
      rewrite <- ?list_fmap_compose;
      try (apply list_fmap_ext; intros i r _); reflexivity.
Qed.

(** ** Scenarios *)

Lemma sanitize_filename_spec_witness :
  String.get 3 (sanitize_filename "#a b-c") = Some "_"%char
  /\ forall_str is_word_char (sanitize_filename "#a b-c") = true
  /\ sanitize_filename (sanitize_filename "#a b-c") = sanitize_filename "#a b-c".
Proof.
  destruct (sanitize_filename_spec "#a b-c") as [(body & Hbody & _ & Hget) Hrest].
  split; [|exact Hrest].
  destruct Hbody as [Hb | [_ Hp]]; [|discriminate Hp].
  injection Hb as <-.
  exact (Hget 3%nat "-"%char eq_refl).
Defined.

(** Scenario A: the only participant without decks today is a member.
    Scenario B: the roster is empty, the participant is unverified. *)
Lemma pending_partition_witness :
  let ann := mkMember "#A" "Ann" 10 4000 1 "leader" 0 "20240501T090300.000Z" in
  let missing_a :=
    missing_attack_today (participants_df_of [mkParticipant "#A" "Ann" 0 0 0 (Some 0)]) in
  let missing_z :=
    missing_attack_today (participants_df_of [mkParticipant "#Z" "Zed" 0 0 0 (Some 0)]) in
  let current_a := current_member_tags_of (members_df_of [ann]) in
  let current_none := current_member_tags_of (members_df_of []) in
  ((Str "#A" ∈ verified_missing_tags missing_a current_a)
   /\ (Str "#A" ∉ unverified_tags missing_a current_a))
  /\ ((Str "#Z" ∉ verified_missing_tags missing_z current_none)
      /\ (Str "#Z" ∈ unverified_tags missing_z current_none)).
Proof.
  intros ann missing_a missing_z current_a current_none.
  destruct (pending_partition [ann] [mkParticipant "#A" "Ann" 0 0 0 (Some 0)])
    as (Hcur & Hzero & Hpen & Hunv & _).
  destruct (pending_partition [] [mkParticipant "#Z" "Zed" 0 0 0 (Some 0)])
    as (Hcur' & Hzero' & Hpen' & Hunv' & _).
  assert (Ha : Str "#A" ∈ current_a).
  { apply Hcur. exists ann. split; [left | reflexivity]. }
  assert (Hza : Str "#A" ∈ missing_tags_today missing_a).
  { apply Hzero. eexists. split; [left|]. split; reflexivity. }
  assert (Hz : Str "#Z" ∉ current_none).
  { intros (m & Hm & _)%Hcur'. inversion Hm. }
  assert (Hzz : Str "#Z" ∈ missing_tags_today missing_z).
  { apply Hzero'. eexists. split; [left|]. split; reflexivity. }
  split; split.
  - apply Hpen. split; assumption.
  - intros [_ Hn]%Hunv. exact (Hn Ha).
  - intros [_ Hc]%Hpen'. exact (Hz Hc).
  - apply Hunv'. split; assumption.
Defined.


(** A record the store holds with an empty phone is exported with the empty
    phone: ["N/A"] is for tags the store does not hold. *)
Example stored_empty_phone_is_exported_empty :
  let info := mkDF ["tag"; "name"] [list_to_map [("tag", Str "#A"); ("name", Str "Ann")]] in
  let store :=
    mkDF SCHEMA [list_to_map [("tag", Str "#A"); ("name", Str "Ann"); ("phone", Str "")]] in
  getitem (missing_players_with_phones info store) "phone" = [Str ""].
Proof. reflexivity. Qed.

(** A refresh that fails after a successful one: the roster that was loaded
    is replaced by an empty one and the clan is still shown as loaded. *)
Example failed_refresh_shows_loaded_clan :
  let ann := mkMember "#A" "Ann" 10 4000 1 "leader" 0 "20240501T090300.000Z" in
  let online :=
    mkEnv None (fun _ _ => Replied (mkMembersPayload (Some [ann]) false))
          (fun _ _ => Replied empty_dict) in
  let offline :=
    mkEnv None (fun _ _ => Refused "403 Client Error" 403 (Some (Some "accessDenied", None)) "")
          (fun _ _ => Failed "timed out") in
  let inp := mkInputs (Some "token") (Some "#qpyl8ycv") true (fun df => df) false
                      (mkDatetime 2024 5 1 9 3) in
  let loaded := run online inp fresh_world in
  let after := run offline inp loaded in
  members_data (session loaded) = Some [ann]
  /\ data_loaded_for_tag (session loaded) = Some "#QPYL8YCV"
  /\ members_data (session after) = Some []
  /\ data_loaded_for_tag (session after) = Some "#QPYL8YCV"
  /\ page after !! 9%nat = Some (WHeader "Dados do Clã: #QPYL8YCV")
  /\ page after !! 10%nat = Some (WSubheader "👥 Membros (0)").
Proof. vm_compute. repeat split. Qed.

(* ================================================================== *)
(** * Further properties of the code *)

(** ** The gateway *)

(** X1. Without a credential, neither typed nor in the environment,
    [fetch_api_data] returns [None] at once: nothing is requested (the
    result is the same for every remote service), nothing is reported and
    the world is unchanged. *)
Theorem fetch_without_credential {A} (get : string -> string -> response A)
    (env : Env) (endpoint : string) (tok : option string) (w : World) :
  truthy tok = false -> truthy (CLASH_ROYALE_API_TOKEN env) = false ->
  fetch_api_data get env endpoint tok w = (None, w).
Proof.
  intros Htok Henv. unfold fetch_api_data, get_api_headers.
  rewrite Htok, Henv. reflexivity.
Qed.

Lemma fetch_without_credential_witness :
  truthy (Some "") = false
  /\ truthy (CLASH_ROYALE_API_TOKEN (mkEnv None (fun _ _ => Failed "x") (fun _ _ => Failed "x")))
     = false
  /\ fetch_api_data (fun _ _ => Replied 7)
                    (mkEnv None (fun _ _ => Failed "x") (fun _ _ => Failed "x"))
                    "clans/%23QPYL8YCV/members" (Some "") fresh_world
     = (None, fresh_world).
Proof.
  split; [reflexivity|]. split; [reflexivity|].
  exact (fetch_without_credential (fun _ _ => Replied 7)
           (mkEnv None (fun _ _ => Failed "x") (fun _ _ => Failed "x"))
           "clans/%23QPYL8YCV/members" (Some "") fresh_world eq_refl eq_refl).
Defined.

(** X2. [fetch_api_data] only ever adds error messages to the page, at most
    two of them, and leaves the session and the disk alone; when it returns
    a body the world is exactly what it was, and when a request was made and
    no body came back at least one error is shown. *)
Theorem fetch_api_data_reports_errors_only {A} (get : string -> string -> response A)
    (env : Env) (endpoint : string) (tok : option string) (w : World) :
  exists errs,
    (fetch_api_data get env endpoint tok w).2
    = mkWorld (session w) (disk w) (page w ++ errs)
    /\ forallb is_error errs = true
    /\ (length errs <= 2)%nat
    /\ (is_Some (fetch_api_data get env endpoint tok w).1 -> errs = [])
    /\ ((fetch_api_data get env endpoint tok w).1 = None ->
        is_Some (get_api_headers env tok) -> errs <> []).
Proof.
  unfold fetch_api_data.
  destruct (get_api_headers env tok) as [headers|].
  - destruct (get _ headers) as [body| exc status detail text | exc].
    + exists []. split; [destruct w; cbn; now rewrite app_nil_r|].
      repeat split; auto; intros H; discriminate H.
    + destruct detail as [[reason message]|];
        [destruct (status =? 403) eqn:E3; [|destruct (status =? 404) eqn:E4]|];
        eexists;
        (split; [unfold mbind, App_bind, st_error, emit; cbn;
                 rewrite <- app_assoc; reflexivity|]);
        (split; [reflexivity|]); (split; [cbn; lia|]);
        (split; [intros [x Hx]; discriminate Hx | intros _ _; discriminate]).
    + eexists.
      split; [unfold mbind, App_bind, st_error, emit; cbn; reflexivity|].
      split; [reflexivity|]. split; [cbn; lia|].
      split; [intros [x Hx]; discriminate Hx | intros _ _; discriminate].
  - exists []. split; [destruct w; cbn; now rewrite app_nil_r|].
    repeat split; auto; intros _ [x Hx]; discriminate Hx.
Qed.

Lemma fetch_api_data_reports_errors_only_witness :
  let env := mkEnv (Some "k") (fun _ _ => Refused "404 Client Error" 404 None "<html>")
                   (fun _ _ => Failed "x") in
  exists errs,
    (fetch_api_data (get_members env) env "clans/%23QPYL8YCV/members" None fresh_world).2
    = mkWorld (session fresh_world) (disk fresh_world) (page fresh_world ++ errs)
    /\ errs <> [].
Proof.
  intros env.
  destruct (fetch_api_data_reports_errors_only
              (get_members env) env "clans/%23QPYL8YCV/members" None fresh_world)
    as (errs & Hw & _ & _ & _ & Hne).
  exists errs. split; [exact Hw|].
  apply Hne; [reflexivity | eexists; reflexivity].
Defined.

Lemma for_all_ascii (p : ascii -> bool) :
  forallb p all_ascii = true -> forall c, p c = true.
Proof.
  intros H c. rewrite forallb_forall in H. apply H, in_all_ascii.
Qed.

Lemma quote_char_safe (c : ascii) :
  (if is_unreserved c then is_url_char c
   else is_url_char (hex_char (code c / 16)) && is_url_char (hex_char (code c mod 16)))
  = true.
Proof. revert c. apply for_all_ascii. vm_compute. reflexivity. Qed.

(** X3. [quote] yields only letters, digits, [_ . - ~ /] and [%]: a ['#']
    never reaches the URL.  It leaves a string of unreserved characters as it
    is, so a clan tag made of ['#'] and such characters is requested as
    [%23] followed by the rest of the tag. *)
Theorem quote_is_url_safe (s : string) :
  forall_str is_url_char (quote s) = true
  /\ (forall_str is_unreserved s = true ->
      quote s = s /\ quote (String "#" s) = "%23" ++ s).
Proof.
  split.
  - induction s as [|c s IH]; [reflexivity|].
    pose proof (quote_char_safe c) as Hc. cbn [quote].
    destruct (is_unreserved c).
    + cbn [forall_str]. now rewrite Hc, IH.
    + apply andb_true_iff in Hc as [H1 H2].
      cbn [forall_str]. rewrite H1, H2, IH. reflexivity.
  - intros Hs.
    assert (Hq : quote s = s).
    { induction s as [|c s IH]; [reflexivity|].
      cbn [forall_str] in Hs. apply andb_true_iff in Hs as [Hc Hr].
      cbn [quote]. rewrite Hc. now rewrite IH. }
    split; [exact Hq|].
    change (quote (String "#" s)) with ("%23" ++ quote s). now rewrite Hq.
Qed.

Lemma quote_is_url_safe_witness :
  forall_str is_url_char (quote "QPYL8YCV") = true
  /\ (forall_str is_unreserved "QPYL8YCV" = true ->
      quote "QPYL8YCV" = "QPYL8YCV" /\ quote "#QPYL8YCV" = "%23" ++ "QPYL8YCV").
Proof. exact (quote_is_url_safe "QPYL8YCV"). Defined.

Lemma get_current_river_race_fst (env : Env) (clan_tag : string) (tok : option string)
    (w : World) :
  (get_current_river_race env clan_tag tok w).1
  = match (fetch_api_data (get_race env) env
                          ("clans/" ++ quote clan_tag ++ "/currentriverrace") tok w).1 with
    | Some d => if race_truthy d then d else empty_dict
    | None => empty_dict
    end.
Proof.
  unfold get_current_river_race. cbv beta zeta. unfold mbind, App_bind.
  destruct (fetch_api_data _ _ _ _ w) as [data w']. reflexivity.
Qed.

(** X4. When the river race request fails, [get_current_river_race] returns
    the empty object, and for the empty object the river race column shows
    the not-participating notice and nothing else: a failed event fetch
    degrades to that notice instead of stopping the script. *)
Theorem river_race_failure_degrades (env : Env) (clan_tag : string)
    (tok : option string) (w : World) :
  (forall url headers body, get_race env url headers <> Replied body) ->
  (get_current_river_race env clan_tag tok w).1 = empty_dict
  /\ forall inp current_tag tags w',
       river_race_column inp current_tag
                         (get_current_river_race env clan_tag tok w).1 tags w'
       = (tt, mkWorld (session w') (disk w') (page w' ++ NOT_IN_WAR_PAGE)).
Proof.
  intros Hfail.
  assert (E : (get_current_river_race env clan_tag tok w).1 = empty_dict).
  { rewrite get_current_river_race_fst. now rewrite fetch_api_data_fails. }
  split; [exact E|]. intros inp current_tag tags w'. rewrite E.
  unfold river_race_column, mbind, App_bind, st_subheader, st_info, emit. cbn.
  now rewrite <- app_assoc.
Qed.

Lemma river_race_failure_degrades_witness :
  let env := mkEnv None (fun _ _ => Failed "x") (fun _ _ => Failed "read timed out") in
  (forall url headers body, get_race env url headers <> Replied body)
  /\ (get_current_river_race env "#QPYL8YCV" (Some "k") fresh_world).1 = empty_dict.
Proof.
  intros env.
  assert (H : forall url headers body, get_race env url headers <> Replied body)
    by discriminate.
  split; [exact H|].
  exact (proj1 (river_race_failure_degrades env "#QPYL8YCV" (Some "k") fresh_world H)).
Defined.

Lemma get_clan_members_replied (env : Env) (clan_tag : string)
    (tok : option string) (w : World) (headers : string) (d : MembersPayload) :
  get_api_headers env tok = Some headers ->
  get_members env (members_url clan_tag) headers = Replied d ->
  get_clan_members env clan_tag tok w = (Some (default [] (items d)), w).
Proof.
  intros Hh Hr. unfold get_clan_members, fetch_api_data. cbv beta zeta.
  rewrite Hh. fold (members_url clan_tag). rewrite Hr.
  unfold mbind, App_bind. cbn.
  unfold payload_truthy. destruct (items d) as [l|] eqn:E; cbn.
  - reflexivity.
  - destruct (mp_other_keys d); reflexivity.
Qed.

(** X5. When the roster request is answered, [get_clan_members] asks for
    [BASE/clans/<quoted tag>/members] with the credential, returns the list
    under [items] (the empty list when the key is absent) and leaves the
    world as it was. *)
Theorem get_clan_members_returns_items (env : Env) (clan_tag : string)
    (tok : option string) (w : World) (headers : string) (d : MembersPayload) :
  get_api_headers env tok = Some headers ->
  get_members env (members_url clan_tag) headers = Replied d ->
  get_clan_members env clan_tag tok w = (Some (default [] (items d)), w).
Proof.
  intros Hheaders Hreply.
  exact (get_clan_members_replied env clan_tag tok w headers d Hheaders Hreply).
Qed.

Lemma get_clan_members_returns_items_witness :
  let ann := mkMember "#A" "Ann" 10 4000 1 "leader" 0 "20240501T090300.000Z" in
  let roster := mkMembersPayload (Some [ann]) false in
  let env :=
    mkEnv None
          (fun url _ =>
             if String.eqb url "https://api.clashroyale.com/v1/clans/%23QPYL8YCV/members"
             then Replied roster else Failed "unexpected URL")
          (fun _ _ => Failed "x") in
  get_api_headers env (Some "k") = Some "Bearer k"
  /\ get_members env (members_url "#QPYL8YCV") "Bearer k" = Replied roster
  /\ get_clan_members env "#QPYL8YCV" (Some "k") fresh_world = (Some [ann], fresh_world).
Proof.
  intros ann roster env.
  split; [reflexivity|]. split; [reflexivity|].
  exact (get_clan_members_returns_items env "#QPYL8YCV" (Some "k") fresh_world
           "Bearer k" roster eq_refl eq_refl).
Defined.

(** ** The contact store *)

(** X6. When the data directory is missing and cannot be created, the
    failure is reported once and nothing else happens: [load_player_data]
    returns the empty table with the three schema columns, and
    [save_player_data] writes nothing. *)
Theorem data_directory_unavailable (df : DataFrame) (clan_tag : string) (w : World)
    (e : string) :
  dir_exists (disk w) = false -> makedirs_error (disk w) = Some e ->
  let reported :=
    mkWorld (session w) (disk w)
            (page w ++ [WError ("Erro ao criar diretório " ++ PLAYER_DATA_DIR ++ ": " ++ e)]) in
  load_player_data clan_tag w = (empty_frame SCHEMA, reported)
  /\ save_player_data df clan_tag w = (tt, reported).
Proof.
  intros Hdir Herr reported.
  unfold load_player_data, save_player_data, get_clan_csv_filename.
  unfold mbind, App_bind, get_disk, st_error, emit. cbn.
  rewrite Hdir, Herr. cbn. split; reflexivity.
Qed.

Lemma data_directory_unavailable_witness :
  let w := mkWorld (session fresh_world) (mkFS false (Some "Permission denied") None ∅) [] in
  dir_exists (disk w) = false /\ makedirs_error (disk w) = Some "Permission denied"
  /\ load_player_data "#QPYL8YCV" w
     = (empty_frame SCHEMA,
        mkWorld (session w) (disk w)
                [WError "Erro ao criar diretório dados_clas: Permission denied"]).
Proof.
  intros w. split; [reflexivity|]. split; [reflexivity|].
  exact (proj1 (data_directory_unavailable (empty_frame []) "#QPYL8YCV" w
                  "Permission denied" eq_refl eq_refl)).
Defined.

Lemma get_clan_csv_filename_frame (clan_tag : string) (w : World) :
  session (get_clan_csv_filename clan_tag w).2 = session w
  /\ files (disk (get_clan_csv_filename clan_tag w).2) = files (disk w)
  /\ write_error (disk (get_clan_csv_filename clan_tag w).2) = write_error (disk w)
  /\ ((get_clan_csv_filename clan_tag w).1 = None
      \/ ((get_clan_csv_filename clan_tag w).1 = Some (contact_path clan_tag)
          /\ dir_exists (disk (get_clan_csv_filename clan_tag w).2) = true)).
Proof.
  unfold get_clan_csv_filename, mbind, App_bind, get_disk.
  destruct w as [s [de me we fl] pg]. cbn.
  destruct de; cbn.
  - repeat split. right. split; reflexivity.
  - destruct me; cbn; repeat split; auto.
Qed.

Lemma load_player_data_frame (clan_tag : string) (w : World) :
  files (disk (load_player_data clan_tag w).2) = files (disk w)
  /\ session (load_player_data clan_tag w).2 = session w.
Proof.
  unfold load_player_data. unfold mbind, App_bind.
  destruct (get_clan_csv_filename_frame clan_tag w) as (Hs & Hf & _ & _).
  destruct (get_clan_csv_filename clan_tag w) as [[path|] w1]; cbn in Hs, Hf.
  - unfold get_disk.
    destruct (read_csv (disk w1) path) as [df| | |err]; cbn; auto.
  - cbn. auto.
Qed.

(** X7. [save_player_data] replaces at most the contact file of the clan:
    every other file and the session are what they were. *)
Theorem save_player_data_touches_one_file (df : DataFrame) (clan_tag : string)
    (w : World) (path : string) :
  path <> contact_path clan_tag ->
  files (disk (save_player_data df clan_tag w).2) !! path = files (disk w) !! path
  /\ session (save_player_data df clan_tag w).2 = session w.
Proof.
  intros Hne. unfold save_player_data. unfold mbind, App_bind.
  destruct (get_clan_csv_filename_frame clan_tag w) as (Hs & Hf & _ & Hpath).
  destruct (get_clan_csv_filename clan_tag w) as [[p|] w1]; cbn in Hs, Hf, Hpath.
  - destruct Hpath as [Hp | [Hp _]]; [discriminate Hp|]. injection Hp as ->.
    unfold get_disk. destruct (write_error (disk w1)); cbn.
    + rewrite Hf. auto.
    + rewrite lookup_insert_ne by congruence. rewrite Hf. auto.
  - cbn. rewrite Hf. auto.
Qed.

Lemma save_player_data_touches_one_file_witness :
  let other := "dados_clas/dados_jogadores_2PP.csv" in
  let w := mkWorld (session fresh_world)
                   (mkFS true None None {[ other := CsvTable SCHEMA [["#B"; "Bob"; "1"]] ]}) [] in
  other <> contact_path "#QPYL8YCV"
  /\ files (disk (save_player_data (empty_frame SCHEMA) "#QPYL8YCV" w).2) !! other
     = files (disk w) !! other.
Proof.
  intros other w.
  assert (H : other <> contact_path "#QPYL8YCV") by discriminate.
  split; [exact H|].
  exact (proj1 (save_player_data_touches_one_file (empty_frame SCHEMA) "#QPYL8YCV" w other H)).
Defined.



(** X9. Saving replaces the whole file: with a usable disk, saving one
    table and then another leaves the world that saving the second alone
    leaves. *)
Theorem last_save_wins (df1 df2 : DataFrame) (clan_tag : string) (w : World) :
  disk_usable (disk w) ->
  (save_player_data df2 clan_tag (save_player_data df1 clan_tag w).2).2
  = (save_player_data df2 clan_tag w).2.
Proof.
  intros Hd. rewrite (save_player_data_usable df1 clan_tag w Hd).
  rewrite (save_player_data_usable df2 clan_tag w Hd).
  rewrite save_player_data_usable
    by (destruct Hd as [_ Hw]; split; [left; reflexivity | exact Hw]).
  cbn [session disk page dir_exists makedirs_error write_error files].
  now rewrite insert_insert_eq.
Qed.

Lemma last_save_wins_witness :
  let df1 := mkDF SCHEMA [list_to_map [("tag", Str "#A"); ("name", Str "Ann"); ("phone", Str "1")]] in
  let df2 := mkDF SCHEMA [list_to_map [("tag", Str "#A"); ("name", Str "Ann"); ("phone", Str "2")]] in
  disk_usable (disk fresh_world)
  /\ (save_player_data df2 "#QPYL8YCV" (save_player_data df1 "#QPYL8YCV" fresh_world).2).2
     = (save_player_data df2 "#QPYL8YCV" fresh_world).2.
Proof.
  intros df1 df2.
  assert (H : disk_usable (disk fresh_world)) by (split; [left|]; reflexivity).
  split; [exact H|].
  exact (last_save_wins df1 df2 "#QPYL8YCV" fresh_world H).
Defined.

Lemma cell_at_row_of (cols : list string) (g : string -> cell) (c : string) :
  cell_at (row_of cols g) c = if bool_decide (c ∈ cols) then g c else NaN.
Proof.
  unfold cell_at, row_of. induction cols as [|a cols IH].
  - reflexivity.
  - cbn [fmap list_fmap]. rewrite list_to_map_cons. cbn [fst snd].
    destruct (decide (a = c)) as [->|Hne].
    + rewrite lookup_insert_eq. rewrite bool_decide_eq_true_2 by left. reflexivity.
    + rewrite lookup_insert_ne by exact Hne. rewrite IH.
      destruct (bool_decide (c ∈ cols)) eqn:E.
      * apply bool_decide_eq_true in E.
        rewrite bool_decide_eq_true_2 by (right; exact E). reflexivity.
      * apply bool_decide_eq_false in E.
        rewrite bool_decide_eq_false_2; [reflexivity|].
        intros [Heq | Hin]%elem_of_cons; [congruence | exact (E Hin)].
Qed.

Lemma parse_field_readable (text : string) : readable (parse_field text).
Proof.
  unfold parse_field. destruct (bool_decide (text ∈ na_values)) eqn:E.
  - left. reflexivity.
  - right. exists text. split; [reflexivity|]. right. now apply bool_decide_eq_false in E.
Qed.

Lemma fill_readable (c : cell) : readable c -> plain (fill (Str "") c).
Proof.
  intros [-> | (s & -> & Hs)].
  - exists "". split; [reflexivity | left; reflexivity].
  - exists s. split; [reflexivity | exact Hs].
Qed.

Lemma frame_of_table_readable (header : list string) (records : list (list string))
    (r : gmap string cell) (c : string) :
  r ∈ rows (frame_of_table header records) -> readable (cell_at r c).
Proof.
  unfold frame_of_table. cbn [rows].
  intros (rec & -> & _)%list_elem_of_fmap.
  unfold cell_at.
  destruct (list_to_map _ !! c) as [v|] eqn:E; [|left; reflexivity].
  apply elem_of_list_to_map_2 in E.
  apply elem_of_lookup_imap in E as (i & label & Heq & _).
  injection Heq as _ ->. apply parse_field_readable.
Qed.

(** One step of the loop of [load_player_data] that adds a missing column. *)
Lemma ensure_column_step (df : DataFrame) (col : string) :
  let df' := if has_column df col then df else setitem_scalar df col (Str "") in
  (forall r c, r ∈ rows df -> readable (cell_at r c)) ->
  col ∈ columns df'
  /\ (forall c, c ∈ columns df -> c ∈ columns df')
  /\ (forall r c, r ∈ rows df' -> readable (cell_at r c)).
Proof.
  intros df' Hrows. unfold df', has_column.
  destruct (bool_decide (col ∈ columns df)) eqn:E.
  - apply bool_decide_eq_true in E. auto.
  - unfold setitem_scalar, add_label. rewrite E. cbn [columns rows].
    split; [apply elem_of_app; right; left|].
    split; [intros c Hc; apply elem_of_app; left; exact Hc|].
    intros r c (r0 & -> & Hr0)%list_elem_of_fmap. unfold cell_at.
    destruct (decide (col = c)) as [->|Hne].
    + rewrite lookup_insert_eq. right. exists "". split; [reflexivity | left; reflexivity].
    + rewrite lookup_insert_ne by exact Hne. apply (Hrows r0 c Hr0).
Qed.

Lemma load_player_data_plain (clan_tag : string) (w : World) :
  columns (load_player_data clan_tag w).1 = SCHEMA
  /\ forall t, t ∈ triples (load_player_data clan_tag w).1 ->
               plain t.1.1 /\ plain t.1.2 /\ plain t.2.
Proof.
  assert (Hempty : columns (empty_frame SCHEMA) = SCHEMA
                   /\ forall t, t ∈ triples (empty_frame SCHEMA) ->
                                plain t.1.1 /\ plain t.1.2 /\ plain t.2).
  { split; [reflexivity|]. intros t Ht. inversion Ht. }
  unfold load_player_data. unfold mbind, App_bind.
  destruct (get_clan_csv_filename clan_tag w) as [[path|] w1]; [|exact Hempty].
  unfold get_disk.
  destruct (read_csv (disk w1) path) as [df| | |err] eqn:E; try exact Hempty.
  assert (Hdf : forall r c, r ∈ rows df -> readable (cell_at r c)).
  { unfold read_csv in E. destruct (files (disk w1) !! path) as [[| |h rs]|];
      try discriminate E. injection E as <-.
    intros r c Hr. exact (frame_of_table_readable h rs r c Hr). }
  cbn [foldl SCHEMA fst].
  destruct (ensure_column_step df "tag" Hdf) as (Ht1 & Hm1 & Hr1).
  set (df1 := if has_column df "tag" then df else setitem_scalar df "tag" (Str "")) in *.
  destruct (ensure_column_step df1 "name" Hr1) as (Ht2 & Hm2 & Hr2).
  set (df2 := if has_column df1 "name" then df1 else setitem_scalar df1 "name" (Str "")) in *.
  destruct (ensure_column_step df2 "phone" Hr2) as (Ht3 & Hm3 & Hr3).
  set (df3 := if has_column df2 "phone" then df2 else setitem_scalar df2 "phone" (Str "")) in *.
  split; [reflexivity|].
  unfold mret, App_ret. cbn [fst].
  intros t Ht. unfold triples, select, fillna, map_cells in Ht. cbn [rows columns] in Ht.
  rewrite <- !list_fmap_compose in Ht.
  apply list_elem_of_fmap in Ht as (r & -> & Hr). cbn [compose fst snd].
  change (cell_at (row_of SCHEMA ?g) "tag") with (g "tag").
  change (cell_at (row_of SCHEMA ?g) "name") with (g "name").
  change (cell_at (row_of SCHEMA ?g) "phone") with (g "phone").
  rewrite !cell_at_row_of.
  rewrite !bool_decide_eq_true_2 by auto.
  repeat split; apply fill_readable, Hr3, Hr.
Qed.

(** X10. Whatever the disk holds (no file, an empty or unreadable file, a
    table with other, fewer or more columns), [load_player_data] returns a
    table with exactly the columns [tag], [name], [phone] in which no cell
    is missing: each is a string, empty or none of the reader's markers. *)
Theorem load_player_data_schema (clan_tag : string) (w : World) :
  columns (load_player_data clan_tag w).1 = SCHEMA
  /\ forall t, t ∈ triples (load_player_data clan_tag w).1 ->
               plain t.1.1 /\ plain t.1.2 /\ plain t.2.
Proof.
  destruct (load_player_data_plain clan_tag w) as [Hcols Hcells].
  split; [exact Hcols | exact Hcells].
Qed.

Lemma load_player_data_schema_witness :
  let w := mkWorld (session fresh_world)
                   (mkFS true None None
                         {[ contact_path "#QPYL8YCV"
                            := CsvTable ["phone"; "tag"; "level"] [["NA"; "#A"; "12"]; ["555"]] ]})
                   [] in
  (Str "#A", Str "", Str "") ∈ triples (load_player_data "#QPYL8YCV" w).1
  /\ plain (Str "#A") /\ plain (Str "") /\ plain (Str "").
Proof.
  intros w.
  assert (H : (Str "#A", Str "", Str "") ∈ triples (load_player_data "#QPYL8YCV" w).1)
    by (vm_compute; left).
  split; [exact H|].
  exact (proj2 (load_player_data_schema "#QPYL8YCV" w) _ H).
Defined.

Lemma to_csv_frame_to_save (df : DataFrame) :
  to_csv (frame_to_save df) = CsvTable SCHEMA (record_of <$> triples (frame_to_save df)).
Proof.
  unfold to_csv, triples. rewrite frame_to_save_columns.
  rewrite <- list_fmap_compose. reflexivity.
Qed.

(** X11. With a usable disk, the file [save_player_data] leaves for the clan
    has the header [tag,name,phone] and one record per row of the caller's
    table: a schema column the table has is copied, a missing value or a
    schema column the table lacks is written as the empty field, and other
    columns are dropped.  A table with none of the three columns is saved as
    the header alone, whatever rows it has. *)
Theorem saved_file_is_normalized (df : DataFrame) (clan_tag : string) (w : World) :
  disk_usable (disk w) ->
  files (disk (save_player_data df clan_tag w).2) !! contact_path clan_tag
  = Some (CsvTable SCHEMA
            (if has_column df "tag" || has_column df "name" || has_column df "phone"
             then record_of <$> (normalized_triple df <$> rows df)
             else [])).
Proof.
  intros Hd. rewrite (save_player_data_usable df clan_tag w Hd).
  cbn [disk files]. unfold contact_path. rewrite lookup_insert_eq.
  rewrite to_csv_frame_to_save, frame_to_save_triples.
  destruct (has_column df "tag" || has_column df "name" || has_column df "phone");
    reflexivity.
Qed.

Lemma saved_file_is_normalized_witness :
  let df := mkDF ["phone"; "level"]
                 [list_to_map [("phone", Str "555"); ("level", Num 12)];
                  list_to_map [("phone", NaN); ("level", Num 9)]] in
  disk_usable (disk fresh_world)
  /\ files (disk (save_player_data df "#QPYL8YCV" fresh_world).2) !! contact_path "#QPYL8YCV"
     = Some (CsvTable SCHEMA [[""; ""; "555"]; [""; ""; ""]]).
Proof.
  intros df.
  assert (H : disk_usable (disk fresh_world)) by (split; [left|]; reflexivity).
  split; [exact H|].
  rewrite (saved_file_is_normalized df "#QPYL8YCV" fresh_world H). reflexivity.
Defined.

(** X12. With a usable disk, a table that has at least one schema column and
    whose normalized cells are none of the reader's missing-value markers
    round-trips: loading after saving returns exactly the normalized records
    of its rows, in order. *)
Theorem contact_round_trip (df : DataFrame) (clan_tag : string) (w : World) :
  disk_usable (disk w) ->
  has_column df "tag" || has_column df "name" || has_column df "phone" = true ->
  (forall r, r ∈ rows df ->
             plain (normalized_cell df "tag" r) /\ plain (normalized_cell df "name" r)
             /\ plain (normalized_cell df "phone" r)) ->
  triples (load_player_data clan_tag (save_player_data df clan_tag w).2).1
  = normalized_triple df <$> rows df.
Proof.
  intros Hd Hcol Hplain.
  assert (E : triples (frame_to_save df) = normalized_triple df <$> rows df).
  { rewrite frame_to_save_triples. now rewrite Hcol. }
  rewrite <- E. apply save_then_load_plain; [exact Hd|].
  intros t Ht. rewrite E in Ht.
  apply list_elem_of_fmap in Ht as (r & -> & Hr).
  exact (Hplain r Hr).
Qed.

Lemma contact_round_trip_witness :
  let df := mkDF ["tag"; "phone"; "note"]
                 [list_to_map [("tag", Str "#A"); ("phone", Str "555-0100"); ("note", Str "x")];
                  list_to_map [("tag", Str "#B"); ("phone", NaN); ("note", NaN)]] in
  disk_usable (disk fresh_world)
  /\ triples (load_player_data "#QPYL8YCV" (save_player_data df "#QPYL8YCV" fresh_world).2).1
     = [(Str "#A", Str "", Str "555-0100"); (Str "#B", Str "", Str "")].
Proof.
  intros df.
  assert (H : disk_usable (disk fresh_world)) by (split; [left|]; reflexivity).
  split; [exact H|].
  rewrite (contact_round_trip df "#QPYL8YCV" fresh_world H eq_refl); [reflexivity|].
  intros r Hr.
  apply elem_of_cons in Hr as [-> | Hr]; [|apply elem_of_cons in Hr as [-> | Hr]];
    [ | | inversion Hr];
    repeat split; eexists; (split; [reflexivity|]);
      first [left; reflexivity | right; vm_compute; intros H'; clear -H';
             repeat (apply elem_of_cons in H' as [H' | H']; [discriminate H'|]);
             inversion H'].
Defined.

(** X13. Reloading is stable: with a usable disk, saving the table that
    [load_player_data] returned and loading again returns the same records,
    whatever the file held before. *)
Theorem reload_is_stable (clan_tag : string) (w : World) :
  disk_usable (disk w) ->
  let loaded := load_player_data clan_tag w in
  triples (load_player_data clan_tag (save_player_data loaded.1 clan_tag loaded.2).2).1
  = triples loaded.1.
Proof.
  intros Hd loaded.
  destruct (load_player_data_plain clan_tag w) as [Hcols Hplain].
  fold loaded in Hcols, Hplain.
  assert (Hd' : disk_usable (disk loaded.2)).
  { destruct Hd as [Hdir Hw]. unfold loaded, load_player_data. unfold mbind, App_bind.
    rewrite (get_clan_csv_filename_usable clan_tag w Hdir).
    unfold get_disk. cbn [disk].
    destruct (read_csv _ _) as [df| | |err]; cbn; (split; [left; reflexivity | exact Hw]). }
  assert (Hrows : triples (frame_to_save loaded.1) = triples loaded.1).
  { rewrite frame_to_save_triples. unfold has_column. rewrite Hcols. cbn [orb].
    change (bool_decide ("tag" ∈ SCHEMA)) with true. cbn [orb].
    unfold triples. apply list_fmap_ext. intros i r Hr.
    assert (Ht : (cell_at r "tag", cell_at r "name", cell_at r "phone") ∈ triples loaded.1).
    { unfold triples. apply list_elem_of_fmap. exists r. split; [reflexivity|].
      apply list_elem_of_lookup. eauto. }
    destruct (Hplain _ Ht) as ((s1 & E1 & _) & (s2 & E2 & _) & (s3 & E3 & _)).
    cbn [fst snd] in E1, E2, E3.
    unfold normalized_triple, normalized_cell, has_column. rewrite Hcols.
    change (bool_decide ("tag" ∈ SCHEMA)) with true.
    change (bool_decide ("name" ∈ SCHEMA)) with true.
    change (bool_decide ("phone" ∈ SCHEMA)) with true.
    cbv iota. rewrite E1, E2, E3. reflexivity. }
  transitivity (triples (frame_to_save loaded.1)); [|exact Hrows].
  apply save_then_load_plain; [exact Hd'|].
  intros t Ht. rewrite Hrows in Ht. exact (Hplain t Ht).
Qed.

Lemma reload_is_stable_witness :
  let w := mkWorld (session fresh_world)
                   (mkFS true None None
                         {[ contact_path "#QPYL8YCV"
                            := CsvTable ["phone"; "tag"] [["N/A"; "#A"]; ["555"; "#B"]] ]})
                   [] in
  disk_usable (disk w)
  /\ triples (load_player_data "#QPYL8YCV"
                (save_player_data (load_player_data "#QPYL8YCV" w).1 "#QPYL8YCV"
                                  (load_player_data "#QPYL8YCV" w).2).2).1
     = triples (load_player_data "#QPYL8YCV" w).1.
Proof.
  intros w.
  assert (H : disk_usable (disk w)) by (split; [left|]; reflexivity).
  split; [exact H|].
  exact (reload_is_stable "#QPYL8YCV" w H).
Defined.

(** ** The table of the phone editor *)

Lemma phone_join_matched (d : list (string * cell)) (left store : DataFrame)
    (l r : gmap string cell) :
  l ∈ rows left -> r ∈ rows store -> cell_at r "tag" = cell_at l "tag" ->
  exists row, row ∈ rows (phone_join d left store)
              /\ joined_cells d l (cell_at r "phone") row.
Proof.
  intros Hl Hr Heq.
  exists (row_of ["tag"; "name"; "phone"]
            (fun c => fill_from d c
                        (cell_at (join_row ["phone"] (row_of ["tag"; "name"] (cell_at l))
                                           (row_of ["tag"; "phone"] (cell_at r)))
                                 c))).
  split; [|repeat split].
  unfold phone_join, fillna_dict, map_cells. cbn [rows columns].
  apply list_elem_of_fmap. eexists. split; [reflexivity|].
  apply elem_of_merge_left.
  exists (row_of ["tag"; "name"] (cell_at l)). split.
  - unfold select. cbn [rows]. apply list_elem_of_fmap. eauto.
  - right. exists (row_of ["tag"; "phone"] (cell_at r)). split; [|split].
    + unfold select. cbn [rows]. apply list_elem_of_fmap. eauto.
    + exact Heq.
    + reflexivity.
Qed.

(** X14. In the table of the phone editor a current member whose tag the
    contact store holds has a row with its tag, its name and the stored
    phone (the empty string when the stored cell is missing). *)
Theorem editor_shows_stored_phone (members : list Member) (store : DataFrame)
    (m : Member) (r : gmap string cell) :
  m ∈ members -> r ∈ rows store -> cell_at r "tag" = Str (m_tag m) ->
  exists row, row ∈ rows (combined_data (members_df_of members) store)
              /\ cell_at row "tag" = Str (m_tag m)
              /\ cell_at row "name" = Str (m_name m)
              /\ cell_at row "phone" = fill (Str "") (cell_at r "phone").
Proof.
  intros Hm Hr Htag.
  destruct (members_df_rows members m Hm) as (l & Hl & Ht & Hn).
  rewrite <- Ht in Htag.
  destruct (phone_join_matched [("phone", Str ""); ("name", Str "")]
              (members_df_of members) store l r Hl Hr Htag)
    as (row & Hrow & Hrt & Hrn & Hrp).
  exists row. split; [exact Hrow|].
  rewrite Hrt, Hrn, Hrp, Ht, Hn. repeat split.
Qed.

Lemma editor_shows_stored_phone_witness :
  let ann := mkMember "#A" "Ann" 10 4000 1 "leader" 0 "20240501T090300.000Z" in
  let record : gmap string cell :=
    list_to_map [("tag", Str "#A"); ("name", Str "Annie"); ("phone", Str "555-0100")] in
  let store := mkDF SCHEMA [record] in
  exists row, row ∈ rows (combined_data (members_df_of [ann]) store)
              /\ cell_at row "tag" = Str "#A"
              /\ cell_at row "name" = Str "Ann"
              /\ cell_at row "phone" = Str "555-0100".
Proof.
  intros ann record store.
  refine (editor_shows_stored_phone [ann] store ann record _ _ _).
  - left.
  - left.
  - reflexivity.
Defined.

Lemma filter_unique {A B} `{EqDecision B} (g : A -> B) (k : B) (l : list A) :
  NoDup (g <$> l) ->
  (length (List.filter (fun r => bool_decide (g r = k)) l) <= 1)%nat.
Proof.
  induction l as [|a l IH]; [cbn; lia|].
  cbn [fmap list_fmap]. intros [Hnotin Hnd]%NoDup_cons. specialize (IH Hnd).
  cbn [List.filter]. destruct (bool_decide (g a = k)) eqn:E; [|exact IH].
  apply bool_decide_eq_true in E.
  destruct (List.filter _ l) as [|b bs] eqn:Ef; [cbn; lia|]. exfalso.
  assert (Hb : b ∈ List.filter (fun r => bool_decide (g r = k)) l) by (rewrite Ef; left).
  apply elem_of_list_filter in Hb as [Hb Hk]. apply bool_decide_eq_true in Hk.
  apply Hnotin. rewrite E, <- Hk. apply list_elem_of_fmap. eauto.
Qed.

Lemma fmap_concat_singletons {A B C} (G : B -> C) (F : A -> list B) (H : A -> C)
    (l : list A) :
  (forall a, G <$> F a = [H a]) -> G <$> concat (F <$> l) = H <$> l.
Proof.
  intros HF. induction l as [|a l IH]; [reflexivity|].
  change (F <$> a :: l) with (F a :: (F <$> l)).
  change (H <$> a :: l) with (H a :: (H <$> l)).
  cbn [concat]. rewrite fmap_app, HF, IH. reflexivity.
Qed.

Lemma phone_join_tags (d : list (string * cell)) (left store : DataFrame) :
  NoDup (getitem store "tag") ->
  getitem (phone_join d left store) "tag"
  = (fun l => fill_from d "tag" (cell_at l "tag")) <$> rows left.
Proof.
  intros Hnd. unfold getitem, phone_join, fillna_dict, map_cells, merge_left, select.
  cbn [rows columns]. rewrite <- !list_fmap_compose.
  apply fmap_concat_singletons. intros l. cbn [compose].
  pose proof (filter_unique (fun r : gmap string cell => cell_at r "tag")
                (cell_at (row_of ["tag"; "name"] (cell_at l)) "tag")
                ((fun r => row_of ["tag"; "phone"] (cell_at r)) <$> rows store)) as Hlen.
  rewrite <- list_fmap_compose in Hlen. specialize (Hlen Hnd).
  destruct (List.filter _ _) as [|m [|m' ms]]; cbn in Hlen; try lia; reflexivity.
Qed.

(** X15. When the contact store holds at most one record per tag, the table
    of the phone editor has exactly one row per current member, in the order
    of the roster. *)
Theorem editor_lists_the_roster (members : list Member) (store : DataFrame) :
  NoDup (getitem store "tag") ->
  getitem (combined_data (members_df_of members) store) "tag"
  = (fun m => Str (m_tag m)) <$> members.
Proof.
  intros Hnd.
  change (combined_data (members_df_of members) store)
    with (phone_join [("phone", Str ""); ("name", Str "")] (members_df_of members) store).
  rewrite (phone_join_tags _ _ _ Hnd).
  destruct members as [|m0 ms]; [reflexivity|].
  unfold members_df_of. generalize (m0 :: ms). clear m0 ms. intros members.
  unfold members_frame. cbn [rows]. rewrite <- list_fmap_compose.
  apply list_fmap_ext. intros i m _. reflexivity.
Qed.

Lemma editor_lists_the_roster_witness :
  let ann := mkMember "#A" "Ann" 10 4000 1 "leader" 0 "20240501T090300.000Z" in
  let bob := mkMember "#B" "Bob" 9 3000 2 "member" 5 "20240430T200000.000Z" in
  let store :=
    mkDF SCHEMA [list_to_map [("tag", Str "#B"); ("name", Str "Bob"); ("phone", Str "1")];
                 list_to_map [("tag", Str "#X"); ("name", Str "Xia"); ("phone", Str "2")]] in
  NoDup (getitem store "tag")
  /\ getitem (combined_data (members_df_of [ann; bob]) store) "tag" = [Str "#A"; Str "#B"].
Proof.
  intros ann bob store.
  assert (H : NoDup (getitem store "tag")).
  { apply NoDup_cons. split.
    - intros Hin. apply list_elem_of_singleton in Hin. discriminate Hin.
    - apply NoDup_singleton. }
  split; [exact H|].
  exact (editor_lists_the_roster [ann; bob] store H).
Defined.

Lemma load_player_data_by_disk (clan_tag : string) (w w' : World) :
  disk w = disk w' ->
  (load_player_data clan_tag w).1 = (load_player_data clan_tag w').1
  /\ disk (load_player_data clan_tag w).2 = disk (load_player_data clan_tag w').2.
Proof.
  destruct w as [s d p], w' as [s' d' p']. cbn [disk]. intros <-.
  unfold load_player_data, get_clan_csv_filename.
  unfold mbind, App_bind, get_disk, put_disk, st_error, emit. cbn [disk session page].
  destruct (dir_exists d); cbn [negb].
  - cbn. destruct (read_csv d _); split; reflexivity.
  - destruct (makedirs_error d); cbn; [split; reflexivity|].
    destruct (read_csv _ _); split; reflexivity.
Qed.

Lemma phones_of_editor_table (df : DataFrame) :
  phones_of (select df ["tag"; "name"; "phone"]) = phones_of df.
Proof.
  unfold phones_of, fillna, map_cells, select. cbn [rows columns]. f_equal.
  rewrite <- !list_fmap_compose. apply list_fmap_ext. intros i r _. reflexivity.
Qed.

(** X16. The contact file is written only when the phones changed: when the
    operator leaves the editor as shown, the left column changes no file and
    records no edited table in the session. *)
Theorem untouched_editor_writes_nothing (inp : Inputs) (current_tag : string)
    (members_data : list Member) (members_df : DataFrame) (w : World) :
  (forall df, data_editor inp df = df) ->
  files (disk (members_column inp current_tag members_data members_df w).2) = files (disk w)
  /\ player_phone_data (session (members_column inp current_tag members_data members_df w).2)
     = player_phone_data (session w).
Proof.
  intros Hid. unfold members_column, modify_session.
  unfold mbind, App_bind, st_subheader, st_info, emit, get_session, put_session.
  destruct (df_empty members_df); cbn [negb]; [cbn; auto|].
  cbn [session disk page].
  match goal with |- context [load_player_data current_tag ?w1] =>
    pose proof (load_player_data_frame current_tag w1) as [Hf Hs];
    destruct (load_player_data current_tag w1) as [store w2] end.
  cbn [fst snd session disk page] in Hf, Hs |- *.
  rewrite Hid.
  change (fillna (Str "") (select ?d ["tag"; "phone"])) with (phones_of d).
  rewrite phones_of_editor_table.
  rewrite bool_decide_eq_true_2 by reflexivity. cbn.
  rewrite Hf, Hs. auto.
Qed.

Lemma untouched_editor_writes_nothing_witness :
  let ann := mkMember "#A" "Ann" 10 4000 1 "leader" 0 "20240501T090300.000Z" in
  let inp := mkInputs None None false (fun df => df) false (mkDatetime 2024 5 1 9 3) in
  (forall df, data_editor inp df = df)
  /\ files (disk (members_column inp "#QPYL8YCV" [ann] (members_df_of [ann]) fresh_world).2)
     = files (disk fresh_world).
Proof.
  intros ann inp.
  assert (H : forall df, data_editor inp df = df) by reflexivity.
  split; [exact H|].
  exact (proj1 (untouched_editor_writes_nothing inp "#QPYL8YCV" [ann]
                  (members_df_of [ann]) fresh_world H)).
Defined.

(** X17. When the operator's table differs from the shown one in its [tag]
    or [phone] cells, the roster is not empty and the disk is usable, the
    left column saves the edited table, normalized, as the contact file of
    the clan and keeps it in the session under the clan tag. *)
Theorem phone_edit_is_saved (inp : Inputs) (current_tag : string)
    (members_data : list Member) (members_df : DataFrame) (w : World) :
  df_empty members_df = false ->
  disk_usable (disk w) ->
  let shown := editor_table current_tag members_df w in
  let edited := data_editor inp shown in
  phones_of edited <> phones_of shown ->
  let after := (members_column inp current_tag members_data members_df w).2 in
  files (disk after) !! contact_path current_tag = Some (to_csv (frame_to_save edited))
  /\ player_phone_data (session after) !! current_tag = Some edited.
Proof.
  intros Hne Hd shown edited Hdiff after.
  unfold after, members_column, modify_session.
  unfold mbind, App_bind, st_subheader, st_info, st_success, emit, get_session, put_session.
  rewrite Hne. cbn [negb]. cbn [session disk page].
  match goal with |- context [load_player_data current_tag ?w2] =>
    destruct (load_player_data_by_disk current_tag w2 w eq_refl) as [Hstore Hdisk2];
    destruct (load_player_data current_tag w2) as [store w3] end.
  cbn [fst snd] in Hstore, Hdisk2.
  assert (Hd3 : disk_usable (disk w3)).
  { rewrite Hdisk2. destruct Hd as [Hdir Hw].
    unfold load_player_data. unfold mbind, App_bind.
    rewrite (get_clan_csv_filename_usable current_tag w Hdir).
    unfold get_disk. cbn [disk].
    destruct (read_csv _ _); cbn; (split; [left; reflexivity | exact Hw]). }
  cbn [session disk page fst snd].
  change (fillna (Str "") (select ?d ["tag"; "phone"])) with (phones_of d).
  assert (Eshown : select (combined_data members_df store) ["tag"; "name"; "phone"] = shown).
  { unfold shown, editor_table. now rewrite Hstore. }
  rewrite Eshown. fold edited.
  assert (Eorig : phones_of (combined_data members_df store) = phones_of shown).
  { rewrite <- Eshown. symmetry. apply phones_of_editor_table. }
  rewrite Eorig.
  rewrite bool_decide_eq_false_2 by (intros E; apply Hdiff; now rewrite E).
  cbn [negb].
  match goal with |- context [save_player_data edited current_tag ?w4] =>
    assert (Hd4 : disk_usable (disk w4)) by exact Hd3;
    pose proof (save_player_data_usable edited current_tag w4 Hd4) as Hsave;
    destruct (save_player_data edited current_tag w4) as [u w5] end.
  cbn [snd] in Hsave. subst w5.
  cbn [session disk page files player_phone_data set_player_phone_data set_editor_keys snd].
  split; apply lookup_insert_eq.
Qed.

Lemma phone_edit_is_saved_witness :
  let ann := mkMember "#A" "Ann" 10 4000 1 "leader" 0 "20240501T090300.000Z" in
  let typed : DataFrame :=
    mkDF ["tag"; "name"; "phone"]
         [list_to_map [("tag", Str "#A"); ("name", Str "Ann"); ("phone", Str "555-0100")]] in
  let inp := mkInputs None None false (fun _ => typed) false (mkDatetime 2024 5 1 9 3) in
  let after := (members_column inp "#QPYL8YCV" [ann] (members_df_of [ann]) fresh_world).2 in
  df_empty (members_df_of [ann]) = false
  /\ disk_usable (disk fresh_world)
  /\ files (disk after) !! contact_path "#QPYL8YCV"
     = Some (CsvTable SCHEMA [["#A"; "Ann"; "555-0100"]]).
Proof.
  intros ann typed inp after.
  assert (H : disk_usable (disk fresh_world)) by (split; [left|]; reflexivity).
  split; [reflexivity|]. split; [exact H|].
  assert (Hdiff : phones_of (data_editor inp (editor_table "#QPYL8YCV" (members_df_of [ann])
                                                            fresh_world))
                  <> phones_of (editor_table "#QPYL8YCV" (members_df_of [ann]) fresh_world)).
  { vm_compute. discriminate. }
  destruct (phone_edit_is_saved inp "#QPYL8YCV" [ann] (members_df_of [ann]) fresh_world
              eq_refl H Hdiff) as [Hfile _].
  exact Hfile.
Defined.

(** ** The pending report *)

Lemma pending_report_frame (inp : Inputs) (current_tag : string)
    (participants_df : DataFrame) (current_member_tags : gset cell) (w : World) :
  files (disk (pending_report inp current_tag participants_df current_member_tags w).2)
  = files (disk w)
  /\ session (pending_report inp current_tag participants_df current_member_tags w).2
     = session w.
Proof.
  unfold pending_report. cbv zeta.
  unfold mbind, App_bind, st_warning, st_success, st_write, emit.
  destruct (df_empty (missing_attack_today participants_df)); cbn [negb]; [cbn; auto|].
  destruct (bool_decide (unverified_tags (missing_attack_today participants_df)
                                         current_member_tags = ∅)); cbn [negb];
    (destruct (bool_decide (verified_missing_tags (missing_attack_today participants_df)
                                                  current_member_tags = ∅));
     [cbn; auto|]);
    unfold mret, App_ret; cbv beta iota; cbn [session disk page];
    match goal with |- context [load_player_data current_tag ?w1] =>
      pose proof (load_player_data_frame current_tag w1) as [Hf Hs];
      destruct (load_player_data current_tag w1) as [store w2] end;
    cbn [fst snd session disk page] in Hf, Hs |- *; auto.
Qed.

(** X18. Generating the pending list only reads: whatever the participants,
    the roster and the disk, the files and the session after
    [pending_report] are those before it. *)
Theorem pending_report_reads_only (inp : Inputs) (current_tag : string)
    (participants_df : DataFrame) (current_member_tags : gset cell) (w : World) :
  files (disk (pending_report inp current_tag participants_df current_member_tags w).2)
  = files (disk w)
  /\ session (pending_report inp current_tag participants_df current_member_tags w).2
     = session w.
Proof.
  destruct (pending_report_frame inp current_tag participants_df current_member_tags w)
    as [Hfiles Hsession].
  split; [exact Hfiles | exact Hsession].
Qed.

(** X19. Without a pending member there is no export: when no zero-deck
    participant is a current member, [pending_report] only adds messages to
    the page, at least one and none of them a download, and leaves the
    session and the disk alone. *)
Theorem no_pending_member_no_export (inp : Inputs) (current_tag : string)
    (participants_df : DataFrame) (current_member_tags : gset cell) (w : World) :
  verified_missing_tags (missing_attack_today participants_df) current_member_tags = ∅ ->
  exists msgs,
    pending_report inp current_tag participants_df current_member_tags w
    = (tt, mkWorld (session w) (disk w) (page w ++ msgs))
    /\ msgs <> [] /\ existsb is_download msgs = false.
Proof.
  intros Hnone. unfold pending_report. cbv zeta.
  unfold mbind, App_bind, st_warning, st_success, st_write, emit.
  destruct (df_empty (missing_attack_today participants_df)); cbn [negb].
  - eexists. split; [reflexivity|]. split; [discriminate | reflexivity].
  - rewrite (bool_decide_eq_true_2 _ Hnone).
    destruct (bool_decide (unverified_tags (missing_attack_today participants_df)
                                           current_member_tags = ∅)); cbn [negb];
      eexists; (split; [cbn; rewrite <- ?app_assoc; reflexivity|]);
      (split; [discriminate | reflexivity]).
Qed.

Lemma no_pending_member_no_export_witness :
  let participants_df := participants_df_of [mkParticipant "#Z" "Zed" 0 0 0 (Some 0)] in
  let inp := mkInputs None None false (fun df => df) true (mkDatetime 2024 5 1 9 3) in
  verified_missing_tags (missing_attack_today participants_df) ∅ = ∅
  /\ exists msgs,
       pending_report inp "#QPYL8YCV" participants_df ∅ fresh_world
       = (tt, mkWorld (session fresh_world) (disk fresh_world) (page fresh_world ++ msgs))
       /\ msgs <> [] /\ existsb is_download msgs = false.
Proof.
  intros participants_df inp.
  assert (H : verified_missing_tags (missing_attack_today participants_df) ∅ = ∅).
  { unfold verified_missing_tags. apply set_eq. intros t.
    rewrite elem_of_intersection. split; [intros [_ H]; exact H | intros H; inversion H]. }
  split; [exact H|].
  exact (no_pending_member_no_export inp "#QPYL8YCV" participants_df ∅ fresh_world H).
Defined.

(** X20. Every record of the export is a current member who used no deck
    today: it carries the name of a participant row with
    [decksUsedToday == 0] whose tag is a member tag, and its phone is ["N/A"]
    when the contact store holds no record under that tag, the stored phone
    of such a record otherwise. *)
Theorem export_lists_only_pending_members (participants_df store : DataFrame)
    (current_member_tags : gset cell) (row : gmap string cell) :
  row ∈ rows (final_missing_list
                (missing_players_with_phones
                   (verified_missing_players_info (missing_attack_today participants_df)
                                                  current_member_tags)
                   store)) ->
  exists l, l ∈ rows participants_df
    /\ eq_zero (cell_at l "decksUsedToday") = true
    /\ cell_at l "tag" ∈ current_member_tags
    /\ cell_at row "Nome" = cell_at l "name"
    /\ ((~ stored store (cell_at l "tag") /\ cell_at row "Telefone" = Str "N/A")
        \/ (exists r, r ∈ rows store /\ cell_at r "tag" = cell_at l "tag"
                      /\ cell_at row "Telefone" = fill (Str "N/A") (cell_at r "phone"))).
Proof.
  intros Hrow.
  unfold final_missing_list, rename, select in Hrow. cbn [rows columns] in Hrow.
  rewrite <- list_fmap_compose in Hrow.
  apply list_elem_of_fmap in Hrow as (j & -> & Hj). cbn [compose].
  change (missing_players_with_phones
            (verified_missing_players_info (missing_attack_today participants_df)
                                           current_member_tags) store)
    with (phone_join [("phone", Str "N/A")]
            (with_tag_in (verified_missing_tags (missing_attack_today participants_df)
                                                 current_member_tags)
                         (missing_attack_today participants_df))
            store) in Hj.
  apply phone_join_elim in Hj as (l & ph & Hl & Hcase & Ht & Hn & Hp).
  apply elem_of_filter_rows in Hl as [Hl Hin].
  unfold isin in Hin. apply bool_decide_eq_true in Hin.
  unfold verified_missing_tags in Hin.
  apply elem_of_intersection in Hin as [_ Hmember].
  apply elem_of_filter_rows in Hl as [Hl Hzero].
  exists l. split; [exact Hl|]. split; [exact Hzero|]. split; [exact Hmember|].
  change (cell_at j "name" = cell_at l "name") in Hn.
  change (cell_at j "phone" = fill (Str "N/A") ph) in Hp.
  split; [exact Hn|].
  destruct Hcase as [[Hno ->] | (r & Hr & Heq & ->)].
  - left. split; [exact Hno | exact Hp].
  - right. exists r. split; [exact Hr|]. split; [exact Heq | exact Hp].
Qed.

Lemma export_lists_only_pending_members_witness :
  let participants_df :=
    participants_df_of [mkParticipant "#A" "Ann" 0 0 0 (Some 0);
                        mkParticipant "#Z" "Zed" 0 0 0 (Some 0)] in
  let final :=
    final_missing_list
      (missing_players_with_phones
         (verified_missing_players_info (missing_attack_today participants_df) {[Str "#A"]})
         (empty_frame SCHEMA)) in
  exists row, row ∈ rows final
    /\ exists l, l ∈ rows participants_df /\ cell_at l "tag" ∈ ({[Str "#A"]} : gset cell)
                 /\ cell_at row "Nome" = cell_at l "name".
Proof.
  intros participants_df final.
  assert (Hne : exists row, row ∈ rows final).
  { eexists. vm_compute. left. }
  destruct Hne as [row Hrow]. exists row. split; [exact Hrow|].
  destruct (export_lists_only_pending_members participants_df (empty_frame SCHEMA)
              {[Str "#A"]} row Hrow) as (l & Hl & _ & Hm & Hn & _).
  exists l. auto.
Defined.

Lemma to_csv_final_missing_list (with_phones : DataFrame) :
  convert_df_to_csv (final_missing_list with_phones)
  = CsvTable ["Nome"; "Telefone"] (export_record <$> rows with_phones).
Proof.
  unfold convert_df_to_csv, to_csv, final_missing_list, rename, select.
  cbn [rows columns]. f_equal.
  rewrite <- !list_fmap_compose. apply list_fmap_ext. intros i r _. reflexivity.
Qed.

Lemma missing_frame_not_empty (participants : list Participant)
    (current_member_tags : gset cell) :
  verified_missing_tags (missing_attack_today (participants_df_of participants))
                        current_member_tags <> ∅ ->
  df_empty (missing_attack_today (participants_df_of participants)) = false.
Proof.
  intros Hne. unfold df_empty. apply orb_false_iff. split.
  - apply bool_decide_eq_false. intros Hrows. apply Hne.
    unfold verified_missing_tags, missing_tags_today, getitem. rewrite Hrows.
    apply set_eq. intros t. rewrite elem_of_intersection. split.
    + intros [H _]. exact H.
    + intros H. inversion H.
  - unfold missing_attack_today, filter_rows, participants_df_of, participants_frame,
      has_column. cbn [columns].
    destruct (has_decks participants); reflexivity.
Qed.

(** X21. When some zero-deck participant is a current member, the pending
    report ends with the download: a table with the header [Nome,Telefone]
    and one record, name and phone, per row of the joined table of pending
    members, offered under the name [pendentes_<clan>_<stamp>.csv] for the
    clan and the clock of the run. *)
Theorem pending_export_download (inp : Inputs) (current_tag : string)
    (participants : list Participant) (current_member_tags : gset cell) (w : World) :
  let participants_df := participants_df_of participants in
  verified_missing_tags (missing_attack_today participants_df) current_member_tags <> ∅ ->
  last (page (pending_report inp current_tag participants_df current_member_tags w).2)
  = Some (WDownload "📥 Baixar Lista de Pendentes (.csv)"
            (CsvTable ["Nome"; "Telefone"]
               (export_record
                  <$> rows (pending_with_phones current_tag participants_df
                                                current_member_tags w)))
            (download_filename current_tag (now inp))).
Proof.
  intros participants_df Hne.
  unfold pending_report. cbv zeta.
  unfold participants_df. rewrite (missing_frame_not_empty _ _ Hne). cbn [negb].
  rewrite (bool_decide_eq_false_2 _ Hne).
  unfold mbind, App_bind, st_warning, st_success, st_write, emit, mret, App_ret.
  unfold pending_with_phones.
  destruct (bool_decide (unverified_tags (missing_attack_today (participants_df_of participants))
                                         current_member_tags = ∅));
    cbn [negb]; cbv beta iota; cbn [session disk page];
    match goal with |- context [load_player_data current_tag ?w1] =>
      destruct (load_player_data_by_disk current_tag w1 w eq_refl) as [Hstore _];
      destruct (load_player_data current_tag w1) as [store w2] end;
    cbn [fst snd session disk page] in Hstore |- *;
    rewrite last_snoc, to_csv_final_missing_list; try rewrite Hstore; reflexivity.
Qed.

Lemma pending_export_download_witness :
  let participants := [mkParticipant "#A" "Ann" 0 0 0 (Some 0);
                       mkParticipant "#Z" "Zed" 0 0 0 (Some 0)] in
  let inp := mkInputs None None false (fun df => df) true (mkDatetime 2024 5 1 9 3) in
  verified_missing_tags (missing_attack_today (participants_df_of participants))
                        {[Str "#A"]} <> ∅
  /\ last (page (pending_report inp "#QPYL8YCV" (participants_df_of participants)
                                {[Str "#A"]} fresh_world).2)
     = Some (WDownload "📥 Baixar Lista de Pendentes (.csv)"
               (CsvTable ["Nome"; "Telefone"] [["Ann"; "N/A"]])
               "pendentes_QPYL8YCV_20240501_0903.csv").
Proof.
  intros participants inp.
  assert (H : verified_missing_tags (missing_attack_today (participants_df_of participants))
                                    {[Str "#A"]} <> ∅).
  { intros E. assert (Hin : Str "#A" ∈ (∅ : gset cell)); [|inversion Hin].
    rewrite <- E. unfold verified_missing_tags. apply elem_of_intersection. split.
    - apply zero_deck_tags. eexists. split; [left|]. split; reflexivity.
    - apply elem_of_singleton. reflexivity. }
  split; [exact H|].
  rewrite (pending_export_download inp "#QPYL8YCV" participants {[Str "#A"]} fresh_world H).
  vm_compute. reflexivity.
Defined.

(** X22. [load_player_data] only reads: whatever the disk holds, the files
    and the session after the call are those before it, and the table it
    returns depends on the disk alone, not on the page or the session. *)
Theorem load_player_data_reads_only (clan_tag : string) (w : World) :
  files (disk (load_player_data clan_tag w).2) = files (disk w)
  /\ session (load_player_data clan_tag w).2 = session w
  /\ forall w', disk w' = disk w ->
                (load_player_data clan_tag w').1 = (load_player_data clan_tag w).1.
Proof.
  destruct (load_player_data_frame clan_tag w) as [Hfiles Hsession].
  split; [exact Hfiles|]. split; [exact Hsession|].
  intros w' Hdisk. exact (proj1 (load_player_data_by_disk clan_tag w' w Hdisk)).
Qed.

(** ** The fetch handler *)

(** X23. The fetch handler rejects its input before any request: without a
    token, or with a clan tag that does not start with ['#'] (the empty tag
    included), it shows one message in the sidebar and stops, under every
    remote service, with the session and the disk unchanged. *)
Theorem fetch_rejects_bad_input (env : Env) (w : World) :
  (truthy (api_token (session w)) = false ->
   fetch_clan_data env w
   = (Stop, mkWorld (session w) (disk w)
                    (page w ++ [WSidebar (WError "Erro: Chave da API não fornecida.")])))
  /\ (truthy (api_token (session w)) = true ->
      startswith (default "" (clan_tag (session w))) "#" = false ->
      fetch_clan_data env w
      = (Stop, mkWorld (session w) (disk w)
                       (page w ++ [WSidebar (WWarning "Erro: Tag de Clã inválida. Deve começar com '#'.")]))).
Proof.
  unfold fetch_clan_data. unfold mbind, App_bind, get_session, emit. split.
  - intros Htok. rewrite Htok. reflexivity.
  - intros Htok Htag. rewrite Htok, Htag. cbn [negb]. rewrite orb_true_r. reflexivity.
Qed.

Lemma fetch_rejects_bad_input_witness :
  let env := mkEnv None (fun _ _ => Failed "x") (fun _ _ => Failed "x") in
  let w := mkWorld (set_clan_tag (Some "QPYL8YCV") (set_api_token (Some "k") (session fresh_world)))
                   (disk fresh_world) [] in
  truthy (api_token (session w)) = true
  /\ startswith (default "" (clan_tag (session w))) "#" = false
  /\ (fetch_clan_data env w).1 = Stop.
Proof.
  intros env w. split; [reflexivity|]. split; [reflexivity|].
  rewrite (proj2 (fetch_rejects_bad_input env w) eq_refl eq_refl). reflexivity.
Defined.



(** ** A run without the fetch button *)

Lemma sidebar_by_token (env env' : Env) (inp : Inputs) :
  CLASH_ROYALE_API_TOKEN env = CLASH_ROYALE_API_TOKEN env' ->
  sidebar env inp = sidebar env' inp.
Proof. intros H. unfold sidebar. now rewrite H. Qed.

(** X25. Only the fetch button reaches the remote service: a run in which
    it is not pressed (typing in a box, editing a phone, generating the
    pending list) is the same under any two remote services. *)
Theorem run_without_fetch_makes_no_request (env env' : Env) (inp : Inputs) (w : World) :
  fetch_clicked inp = false ->
  CLASH_ROYALE_API_TOKEN env = CLASH_ROYALE_API_TOKEN env' ->
  run env inp w = run env' inp w.
Proof.
  intros Hclick Htoken. unfold run, script_pass.
  change (fetch_clicked (released inp)) with false. cbv iota.
  rewrite Hclick, (sidebar_by_token env env' inp Htoken),
    (sidebar_by_token env env' (released inp) Htoken).
  reflexivity.
Qed.

Lemma run_without_fetch_makes_no_request_witness :
  let ann := mkMember "#A" "Ann" 10 4000 1 "leader" 0 "20240501T090300.000Z" in
  let online := mkEnv None (fun _ _ => Replied (mkMembersPayload (Some [ann]) false))
                      (fun _ _ => Replied empty_dict) in
  let offline := mkEnv None (fun _ _ => Failed "x") (fun _ _ => Failed "x") in
  let inp := mkInputs (Some "k") (Some "#QPYL8YCV") false (fun df => df) true
                      (mkDatetime 2024 5 1 9 3) in
  fetch_clicked inp = false
  /\ CLASH_ROYALE_API_TOKEN online = CLASH_ROYALE_API_TOKEN offline
  /\ run online inp fresh_world = run offline inp fresh_world.
Proof.
  intros ann online offline inp. split; [reflexivity|]. split; [reflexivity|].
  exact (run_without_fetch_makes_no_request online offline inp fresh_world eq_refl eq_refl).
Defined.

Lemma sidebar_loaded (env : Env) (inp : Inputs) (w : World) :
  loaded_data (session (sidebar env inp w).2) = loaded_data (session w).
Proof.
  unfold sidebar, modify_session.
  unfold mbind, App_bind, get_session, put_session, emit, mret, App_ret.
  cbn [session disk page].
  destruct (bool_decide (api_token (session w) = None)); cbn [session disk page set_api_token
                                                               api_token];
    match goal with |- context [truthy ?x] => destruct (truthy x) end;
    cbn [session disk page set_api_token clan_tag];
    destruct (bool_decide (clan_tag (session w) = None)); reflexivity.
Qed.

Lemma save_player_data_session (df : DataFrame) (clan_tag : string) (w : World) :
  session (save_player_data df clan_tag w).2 = session w.
Proof.
  unfold save_player_data. unfold mbind, App_bind.
  destruct (get_clan_csv_filename_frame clan_tag w) as (Hs & _).
  destruct (get_clan_csv_filename clan_tag w) as [[p|] w1]; cbn in Hs; [|exact Hs].
  unfold get_disk. destruct (write_error (disk w1)); exact Hs.
Qed.

Lemma members_column_loaded (inp : Inputs) (current_tag : string)
    (members_data : list Member) (members_df : DataFrame) (w : World) :
  loaded_data (session (members_column inp current_tag members_data members_df w).2)
  = loaded_data (session w).
Proof.
  unfold members_column, modify_session.
  unfold mbind, App_bind, st_subheader, st_info, st_success, emit, get_session, put_session.
  destruct (df_empty members_df); cbn [negb]; [reflexivity|].
  cbn [session disk page].
  match goal with |- context [load_player_data current_tag ?w1] =>
    pose proof (load_player_data_frame current_tag w1) as [_ Hs];
    destruct (load_player_data current_tag w1) as [store w2] end.
  cbn [fst snd session disk page] in Hs |- *.
  match goal with |- context [negb (bool_decide ?P)] => destruct (bool_decide P) end;
    cbn [negb].
  - cbn. unfold loaded_data. cbn. now rewrite Hs.
  - match goal with |- context [save_player_data ?e current_tag ?w4] =>
      pose proof (save_player_data_session e current_tag w4) as Hsave;
      destruct (save_player_data e current_tag w4) as [u w5] end.
    cbn [snd session] in Hsave. cbn. unfold loaded_data. cbn. now rewrite Hsave, Hs.
Qed.

Lemma river_race_column_session (inp : Inputs) (current_tag : string)
    (river_race_data : RiverRace) (current_member_tags : gset cell) (w : World) :
  session (river_race_column inp current_tag river_race_data current_member_tags w).2
  = session w.
Proof.
  unfold river_race_column.
  unfold mbind, App_bind, st_subheader, st_info, st_write, emit.
  destruct (race_truthy river_race_data && _); [|reflexivity].
  destruct (rr_clan river_race_data) as [clan_info|]; [|reflexivity].
  destruct (clan_truthy clan_info); [|reflexivity].
  destruct (default [] (ci_participants clan_info)) as [|p ps]; [reflexivity|].
  destruct (pending_clicked inp); [|reflexivity].
  cbn [session disk page].
  match goal with |- context [pending_report inp current_tag ?df ?tags ?w1] =>
    pose proof (pending_report_frame inp current_tag df tags w1) as [_ Hs];
    destruct (pending_report inp current_tag df tags w1) as [u w2] end.
  cbn [snd session] in Hs. cbn. exact Hs.
Qed.

(** X26. Only the fetch button changes what is loaded: after a run in
    which it is not pressed, the roster, the river race and the loaded-clan
    marker of the session are what they were, whatever else the operator
    did. *)
Theorem run_without_fetch_keeps_loaded_data (env : Env) (inp : Inputs) (w : World) :
  fetch_clicked inp = false ->
  loaded_data (session (run env inp w)) = loaded_data (session w).
Proof.
  intros Hclick. unfold run, script_pass. rewrite Hclick.
  unfold mbind at 1 2 3, App_bind at 1 2 3. unfold emit at 1.
  cbn [session disk page blank].
  match goal with |- context [sidebar env inp ?w1] =>
    pose proof (sidebar_loaded env inp w1) as Hside;
    destruct (sidebar env inp w1) as [u w2] end.
  cbn [snd session] in Hside. unfold mret at 1, App_ret at 1. cbv beta iota.
  unfold mbind, App_bind, mret, App_ret.
  assert (Hdisp : loaded_data (session (display inp w2).2) = loaded_data (session w2)).
  { unfold display. unfold mbind, App_bind, get_session, emit, st_info, st_warning,
      mret, App_ret.
    destruct (truthy (data_loaded_for_tag (session w2))).
    - cbn [session disk page].
      match goal with |- context [members_column inp ?t ?md ?mdf ?w3] =>
        pose proof (members_column_loaded inp t md mdf w3) as Hm;
        destruct (members_column inp t md mdf w3) as [u1 w4] end.
      cbn [snd session] in Hm.
      match goal with |- context [river_race_column inp ?t ?rr ?tags w4] =>
        pose proof (river_race_column_session inp t rr tags w4) as Hr;
        destruct (river_race_column inp t rr tags w4) as [u2 w5] end.
      cbn [snd] in Hr |- *. now rewrite Hr, Hm.
    - destruct (truthy (clan_tag (session w2))); cbn [negb]; [|reflexivity].
      destruct (truthy (api_token (session w2))); reflexivity. }
  destruct (display inp w2) as [u3 w6]. cbn [snd] in Hdisp |- *.
  now rewrite Hdisp, Hside.
Qed.

Lemma run_without_fetch_keeps_loaded_data_witness :
  let ann := mkMember "#A" "Ann" 10 4000 1 "leader" 0 "20240501T090300.000Z" in
  let env := mkEnv None (fun _ _ => Failed "x") (fun _ _ => Failed "x") in
  let w := mkWorld (set_data_loaded_for_tag (Some "#QPYL8YCV")
                      (set_members_data (Some [ann]) (session fresh_world)))
                   (disk fresh_world) [] in
  let inp := mkInputs (Some "k") (Some "#zzz") false (fun df => df) true
                      (mkDatetime 2024 5 1 9 3) in
  fetch_clicked inp = false
  /\ loaded_data (session (run env inp w)) = (Some [ann], None, Some "#QPYL8YCV").
Proof.
  intros ann env w inp. split; [reflexivity|].
  rewrite (run_without_fetch_keeps_loaded_data env inp w eq_refl). reflexivity.
Defined.

(** ** The stored clan tag *)

Lemma upper_char_space (c : ascii) : is_space (upper_char c) = is_space c.
Proof.
  apply eqb_prop. revert c. apply for_all_ascii. vm_compute. reflexivity.
Qed.

Lemma upper_char_idem (c : ascii) : upper_char (upper_char c) = upper_char c.
Proof.
  apply Ascii.eqb_eq. revert c. apply for_all_ascii. vm_compute. reflexivity.
Qed.

Lemma upper_char_not_lower (c : ascii) : is_lower (upper_char c) = false.
Proof.
  apply negb_true_iff. revert c. apply for_all_ascii. vm_compute. reflexivity.
Qed.

Lemma lstrip_upper (s : string) : lstrip (upper s) = upper (lstrip s).
Proof.
  unfold upper. induction s as [|c s IH]; [reflexivity|].
  cbn [map_str lstrip]. rewrite upper_char_space.
  destruct (is_space c); [exact IH | reflexivity].
Qed.

Lemma rstrip_upper (s : string) : rstrip (upper s) = upper (rstrip s).
Proof.
  unfold upper. induction s as [|c s IH]; [reflexivity|].
  cbn [map_str rstrip]. rewrite IH, upper_char_space.
  destruct (rstrip s) as [|x r]; cbn [map_str]; [|reflexivity].
  destruct (is_space c); reflexivity.
Qed.

Lemma rstrip_idem (s : string) : rstrip (rstrip s) = rstrip s.
Proof.
  induction s as [|c s IH]; [reflexivity|].
  cbn [rstrip]. destruct (rstrip s) as [|x r] eqn:E.
  - destruct (is_space c) eqn:Ec; [reflexivity|]. cbn [rstrip]. now rewrite Ec.
  - cbn [rstrip]. cbn [rstrip] in IH. now rewrite IH.
Qed.

(** A string is empty or starts with a character that is not white space. *)
Lemma lstrip_head (s : string) :
  lstrip s = "" \/ exists c r, lstrip s = String c r /\ is_space c = false.
Proof.
  induction s as [|c s IH]; [left; reflexivity|].
  cbn [lstrip]. destruct (is_space c) eqn:E; [exact IH|].
  right. exists c, s. auto.
Qed.

Lemma lstrip_rstrip_fixed (t : string) :
  (t = "" \/ exists c r, t = String c r /\ is_space c = false) ->
  lstrip (rstrip t) = rstrip t.
Proof.
  intros [-> | (c & r & -> & Hc)]; [reflexivity|].
  cbn [rstrip]. destruct (rstrip r); [rewrite Hc|]; cbn [lstrip]; now rewrite Hc.
Qed.

Lemma strip_idem (s : string) : strip (strip s) = strip s.
Proof.
  unfold strip. rewrite (lstrip_rstrip_fixed (lstrip s) (lstrip_head s)).
  apply rstrip_idem.
Qed.

Lemma upper_idem (s : string) : upper (upper s) = upper s.
Proof.
  unfold upper. induction s as [|c s IH]; [reflexivity|].
  cbn [map_str]. now rewrite upper_char_idem, IH.
Qed.

Lemma strip_upper (s : string) : strip (upper s) = upper (strip s).
Proof. unfold strip. now rewrite lstrip_upper, rstrip_upper. Qed.

(** X27. The clan tag kept in the session is normalized: it has no
    surrounding white space and no lower-case letter, and reading it again
    through the box (as every later run does) gives the same tag. *)
Theorem stored_clan_tag_is_normalized (text : string) :
  strip (clan_tag_input text) = clan_tag_input text
  /\ forall_str (fun c => negb (is_lower c)) (clan_tag_input text) = true
  /\ clan_tag_input (clan_tag_input text) = clan_tag_input text.
Proof.
  unfold clan_tag_input.
  assert (Hs : strip (upper (strip text)) = upper (strip text)).
  { now rewrite strip_upper, strip_idem. }
  split; [exact Hs|]. split.
  - unfold upper. apply forall_str_map_fix. intros c.
    now rewrite upper_char_not_lower.
  - now rewrite Hs, upper_idem.
Qed.

(** ** Zero decks and departed members *)

(** X28. When no participant of the snapshot carries [decksUsedToday], the
    column is added with 0 for everybody, so every participant is in the
    zero-deck set; when the column is there, a participant is in it exactly
    when some participant with its tag has the value 0. *)
Theorem zero_deck_set_by_column (participants : list Participant) :
  let zero := missing_tags_today (missing_attack_today (participants_df_of participants)) in
  (has_decks participants = false ->
   forall p, p ∈ participants -> Str (p_tag p) ∈ zero)
  /\ (has_decks participants = true ->
      forall t, t ∈ zero <->
                exists p, p ∈ participants /\ t = Str (p_tag p)
                          /\ p_decksUsedToday p = Some 0).
Proof.
  intros zero. split.
  - intros Hno p Hp. apply zero_deck_tags. exists p.
    unfold decks_cell. rewrite Hno. auto.
  - intros Hyes t. unfold zero. rewrite zero_deck_tags. unfold decks_cell. rewrite Hyes.
    split; intros (p & Hp & Ht & Hz); exists p; (split; [exact Hp|]); (split; [exact Ht|]).
    + destruct (p_decksUsedToday p) as [n|]; [|discriminate Hz].
      cbn in Hz. apply Z.eqb_eq in Hz. now subst n.
    + rewrite Hz. reflexivity.
Qed.

Lemma zero_deck_set_by_column_witness :
  let ann := mkParticipant "#A" "Ann" 0 0 0 None in
  let bob := mkParticipant "#B" "Bob" 0 0 0 None in
  has_decks [ann; bob] = false
  /\ Str "#B" ∈ missing_tags_today (missing_attack_today (participants_df_of [ann; bob])).
Proof.
  intros ann bob. split; [reflexivity|].
  refine (proj1 (zero_deck_set_by_column [ann; bob]) eq_refl bob _).
  right. left.
Defined.

Lemma load_player_data_page (clan_tag : string) (w : World) :
  exists errs : list widget, page (load_player_data clan_tag w).2 = (page w ++ errs)%list.
Proof.
  unfold load_player_data, get_clan_csv_filename.
  unfold mbind, App_bind, get_disk, put_disk, st_error, emit, mret, App_ret.
  destruct w as [s d p]. cbn [disk session page].
  destruct (dir_exists d); cbn [negb]; [|destruct (makedirs_error d)];
    cbv beta iota; cbn [disk session page];
    try (match goal with |- context [read_csv ?a ?b] => destruct (read_csv a b) end);
    cbn [snd page];
    first [ eexists; reflexivity | exists []; now rewrite app_nil_r ].
Qed.

Lemma unverified_frame_not_empty (participants : list Participant)
    (current_member_tags : gset cell) :
  unverified_tags (missing_attack_today (participants_df_of participants))
                  current_member_tags <> ∅ ->
  df_empty (missing_attack_today (participants_df_of participants)) = false.
Proof.
  intros Hne. unfold df_empty. apply orb_false_iff. split.
  - apply bool_decide_eq_false. intros Hrows. apply Hne.
    unfold unverified_tags, missing_tags_today, getitem. rewrite Hrows.
    apply set_eq. intros t. rewrite elem_of_difference. split.
    + intros [H _]. exact H.
    + intros H. inversion H.
  - unfold missing_attack_today, filter_rows, participants_df_of, participants_frame,
      has_column. cbn [columns].
    destruct (has_decks participants); reflexivity.
Qed.

(** X29. Departed members are reported, not exported: when some zero-deck
    participant is not a current member, the first thing the pending report
    adds to the page is a warning that lists the names of those
    participants. *)
Theorem departed_members_are_reported (inp : Inputs) (current_tag : string)
    (participants : list Participant) (current_member_tags : gset cell) (w : World) :
  let missing := missing_attack_today (participants_df_of participants) in
  let unverified := unverified_tags missing current_member_tags in
  unverified <> ∅ ->
  exists rest,
    page (pending_report inp current_tag (participants_df_of participants)
                         current_member_tags w).2
    = (page w
       ++ WWarning ("⚠️ Jogadores com 0 decks usados hoje, mas que **não estão mais na lista de membros** (podem ter saído): "
                    ++ join_comma (cell_text <$> getitem (with_tag_in unverified missing) "name"))%string
          :: rest)%list.
Proof.
  intros missing unverified Hne. unfold pending_report. cbv zeta.
  fold missing. fold unverified.
  unfold missing at 1. rewrite (unverified_frame_not_empty _ _ Hne). cbn [negb].
  rewrite (bool_decide_eq_false_2 _ Hne). cbn [negb].
  unfold mbind, App_bind, st_warning, st_success, st_write, emit, mret, App_ret.
  cbv beta iota. cbn [session disk page].
  destruct (bool_decide (verified_missing_tags missing current_member_tags = ∅)).
  - eexists. cbn [snd page]. rewrite <- app_assoc. reflexivity.
  - match goal with |- context [load_player_data current_tag ?w1] =>
      destruct (load_player_data_page current_tag w1) as [errs Hpage];
      destruct (load_player_data current_tag w1) as [store w2] end.
    cbn [snd page] in Hpage |- *. rewrite Hpage.
    eexists. rewrite <- !app_assoc. cbn [app]. reflexivity.
Qed.

Lemma departed_members_are_reported_witness :
  let participants := [mkParticipant "#A" "Ann" 0 0 0 (Some 0);
                       mkParticipant "#Z" "Zed" 0 0 0 (Some 0)] in
  let inp := mkInputs None None false (fun df => df) true (mkDatetime 2024 5 1 9 3) in
  unverified_tags (missing_attack_today (participants_df_of participants)) {[Str "#A"]} <> ∅
  /\ exists rest,
       page (pending_report inp "#QPYL8YCV" (participants_df_of participants)
                            {[Str "#A"]} fresh_world).2
       = WWarning "⚠️ Jogadores com 0 decks usados hoje, mas que **não estão mais na lista de membros** (podem ter saído): Zed"
         :: rest.
Proof.
  intros participants inp.
  assert (H : unverified_tags (missing_attack_today (participants_df_of participants))
                              {[Str "#A"]} <> ∅).
  { intros E. assert (Hin : Str "#Z" ∈ (∅ : gset cell)); [|inversion Hin].
    rewrite <- E. unfold unverified_tags. apply elem_of_difference. split.
    - apply zero_deck_tags. eexists. split; [right; left|]. split; reflexivity.
    - intros Hin. apply elem_of_singleton in Hin. discriminate Hin. }
  split; [exact H|].
  destruct (departed_members_are_reported inp "#QPYL8YCV" participants {[Str "#A"]}
              fresh_world H) as [rest Hrest].
  exists rest. rewrite Hrest. reflexivity.
Defined.
